(** * Filesflow: the pattern engine of [utils/patterns.py]

    A shallow embedding of [PatternManager] (template validation, template
    rendering, filename sanitising and the per-user counter store) together
    with the part of [Database] it talks to, and the properties the
    specification states about them.

    Conventions of the embedding.
    - A Python [str] is a [string]: a sequence of 8-bit characters, read as the
      code points 0..255.
    - A Python [int] is a [Z].
    - [self.user_counters] (a dict keyed by strings) and the [users] table
      (keyed by the integer user id) are [gmap]s; the JSON object stored in the
      [preferences] column is a [gmap] from preference name to integer, the
      only values this module ever stores there.
    - A method that only reads takes the store and returns the value with
      the store (the cache may be filled).  A method that takes the database
      lock takes the whole world, lock included, and either returns or blocks
      for good (module [Locked]).
    - A computation that may raise returns [Exc]; a [try]/[except Exception]
      is a [match] on it. *)

From Stdlib Require Import ZArith String Ascii List Bool Lia.
From Stdlib Require Import DecimalString DecimalPos DecimalZ.
From Stdlib Require Import Sorting.Sorted.
From stdpp Require Import gmap strings.

Local Open Scope string_scope.
Local Open Scope Z_scope.

(** String concatenation unfolds under [simpl] on a constructor. *)
#[local] Arguments String.append !s1 s2 : simpl nomatch.
#[local] Arguments Ascii.eqb : simpl never.

(** ** Python string primitives *)

Module Py.

(** [len(s)] is [String.length]; [a + b] is [String.append]. *)

(** [s.startswith(p)] *)
Fixpoint startswith (p s : string) : bool :=
  match p, s with
  | EmptyString, _ => true
  | String a p', String b s' => Ascii.eqb a b && startswith p' s'
  | String _ _, EmptyString => false
  end.

(** [s[n:]] *)
Fixpoint drop (n : nat) (s : string) : string :=
  match n, s with
  | O, _ => s
  | S _, EmptyString => EmptyString
  | S k, String _ s' => drop k s'
  end.

(** [s[:n]] *)
Fixpoint take (n : nat) (s : string) : string :=
  match n, s with
  | O, _ => EmptyString
  | S _, EmptyString => EmptyString
  | S k, String c s' => String c (take k s')
  end.

(** [s.endswith(suffix)] *)
Definition endswith (s suffix : string) : bool :=
  (String.length suffix <=? String.length s)%nat &&
  String.eqb (drop (String.length s - String.length suffix) s) suffix.

(** [sub in s] *)
Fixpoint contains (sub s : string) : bool :=
  startswith sub s ||
  match s with
  | EmptyString => false
  | String _ s' => contains sub s'
  end.

(** [c in s] for a one-character [c] *)
Fixpoint has_char (c : ascii) (s : string) : bool :=
  match s with
  | EmptyString => false
  | String a s' => Ascii.eqb a c || has_char c s'
  end.

(** [s.replace(old, new)] for a non-empty [old]: the occurrences of [old] are
    found left to right and do not overlap.  [skip] counts the characters of
    a match that are still to be passed over. *)
Fixpoint replace_from (old new s : string) (skip : nat) : string :=
  match s with
  | EmptyString => EmptyString
  | String c s' =>
      match skip with
      | S k => replace_from old new s' k
      | O =>
          if startswith old s
          then new ++ replace_from old new s' (String.length old - 1)
          else String c (replace_from old new s' O)
      end
  end.

(** [s.replace(old, new)]; with an empty [old], Python puts [new] before every
    character and at the end. *)
Fixpoint intersperse (new s : string) : string :=
  match s with
  | EmptyString => new
  | String c s' => new ++ String c (intersperse new s')
  end.

Definition replace (old new s : string) : string :=
  match old with
  | EmptyString => intersperse new s
  | String _ _ => replace_from old new s O
  end.

(** [s.count(sub)] for a non-empty [sub]: non-overlapping occurrences. *)
Fixpoint count_from (sub s : string) (skip : nat) : nat :=
  match s with
  | EmptyString => O
  | String _ s' =>
      match skip with
      | S k => count_from sub s' k
      | O =>
          if startswith sub s
          then S (count_from sub s' (String.length sub - 1))
          else count_from sub s' O
      end
  end.

Definition count (sub s : string) : nat :=
  match sub with
  | EmptyString => S (String.length s)
  | String _ _ => count_from sub s O
  end.

(** [s.split(sep)] for a one-character [sep]: always at least one field. *)
Fixpoint split (sep : ascii) (s : string) : list string :=
  match s with
  | EmptyString => [EmptyString]
  | String c s' =>
      if Ascii.eqb c sep then EmptyString :: split sep s'
      else match split sep s' with
           | f :: fs => String c f :: fs
           | [] => [String c EmptyString]
           end
  end.

(** [sep.join(fields)] *)
Fixpoint join (sep : string) (fields : list string) : string :=
  match fields with
  | [] => EmptyString
  | [f] => f
  | f :: fs => f ++ sep ++ join sep fs
  end.

(** [fields[:-1]] and [fields[-1]] (the latter on a non-empty list). *)
Definition init (fields : list string) : list string := removelast fields.
Definition last (fields : list string) : string := List.last fields EmptyString.

(** [s.lstrip(chars)], [s.rstrip(chars)], [s.strip(chars)], with the set of
    characters given as a predicate. *)
Fixpoint lstrip (p : ascii -> bool) (s : string) : string :=
  match s with
  | EmptyString => EmptyString
  | String c s' => if p c then lstrip p s' else s
  end.

Fixpoint rstrip (p : ascii -> bool) (s : string) : string :=
  match s with
  | EmptyString => EmptyString
  | String c s' =>
      match rstrip p s' with
      | EmptyString => if p c then EmptyString else String c EmptyString
      | r => String c r
      end
  end.

Definition strip (p : ascii -> bool) (s : string) : string :=
  rstrip p (lstrip p s).

(** [str.isspace] on the code points 0..255: the characters that the
    argument-less [s.strip()] removes. *)
Definition isspace (c : ascii) : bool :=
  let n := nat_of_ascii c in
  ((9 <=? n) && (n <=? 13) || (28 <=? n) && (n <=? 32) ||
   (n =? 133) || (n =? 160))%nat.

(** A non-empty string is truthy. *)
Definition truthy (s : string) : bool :=
  match s with EmptyString => false | String _ _ => true end.

(** [str(n)] for an integer. *)
Definition str (n : Z) : string := NilZero.string_of_int (Z.to_int n).

(** [s.rjust(width, fill)] *)
Fixpoint repeat_char (c : ascii) (n : nat) : string :=
  match n with O => EmptyString | S k => String c (repeat_char c k) end.

Definition rjust (width : nat) (fill : ascii) (s : string) : string :=
  repeat_char fill (width - String.length s) ++ s.

End Py.


(** ** Exceptions *)

Inductive exn := ValueError | IndexError | OverflowError.

Inductive Exc (A : Type) : Type :=
  | Ok (a : A)
  | Raise (e : exn).
Arguments Ok {A} a.
Arguments Raise {A} e.

Definition bind {A B : Type} (m : Exc A) (k : A -> Exc B) : Exc B :=
  match m with
  | Ok a => k a
  | Raise e => Raise e
  end.

(** [s[0]]: [IndexError] on the empty string. *)
Definition index0 (s : string) : Exc ascii :=
  match s with
  | EmptyString => Raise IndexError
  | String c _ => Ok c
  end.

Notation "'let!' x ':=' m 'in' k" := (bind m (fun x => k))
  (at level 10, x name, m at level 100, k at level 200).

(** ** The three regular expressions, as scanners

    [re.findall] with one capturing group returns the list of the group's
    texts, as strings; a group that took no part in a match contributes the
    empty string.  Matches are searched left to right and do not overlap. *)

Module Re.

(** The longest prefix of characters satisfying [p], and what follows it: a
    greedy [[...]*]. *)
Fixpoint span (p : ascii -> bool) (s : string) : string * string :=
  match s with
  | EmptyString => (EmptyString, EmptyString)
  | String c s' =>
      if p c then let (a, b) := span p s' in (String c a, b)
      else (EmptyString, s)
  end.

Definition not_close (c : ascii) : bool := negb (Ascii.eqb c "}").

Definition isdigit (c : ascii) : bool :=
  let n := nat_of_ascii c in ((48 <=? n) && (n <=? 57))%nat.

(** A greedy, non-empty [cls+] followed by the closing brace, at the start of
    [s]: the text taken by [cls+].  Giving characters back cannot help, since
    the character after a shorter run is in [cls] and so is not the brace
    ([cls] never contains it). *)
Definition plus_then_close (cls : ascii -> bool) (s : string) : option string :=
  let (body, rest) := span cls s in
  if Py.truthy body && Py.startswith "}" rest then Some body else None.

(** One attempt of [\{([^}]+)\}] at the start of [s]: the group and the
    length of the match. *)
Definition match_variable (s : string) : option (string * nat) :=
  match s with
  | String "{" r =>
      match plus_then_close not_close r with
      | Some body => Some (body, (String.length body + 2)%nat)
      | None => None
      end
  | _ => None
  end.

(** One attempt of [\{name(?::(cls+))?\}] at the start of [s].  The optional
    part is tried first; when it fails the brace must follow [name] at
    once, and the group is empty. *)
Definition match_optional (name : string) (cls : ascii -> bool) (s : string)
  : option (string * nat) :=
  if Py.startswith (String "{" name) s then
    match Py.drop (S (String.length name)) s with
    | String "}" _ => Some (EmptyString, (String.length name + 2)%nat)
    | String ":" r =>
        match plus_then_close cls r with
        | Some body =>
            Some (body, (String.length name + String.length body + 3)%nat)
        | None => None
        end
    | _ => None
    end
  else None.

(** [re.findall]: scan, and after a match resume behind it.  None of the
    expressions matches the empty string, so nothing is found at the end. *)
Fixpoint findall_from (m : string -> option (string * nat)) (s : string)
    (skip : nat) : list string :=
  match s with
  | EmptyString => []
  | String _ s' =>
      match skip with
      | S k => findall_from m s' k
      | O =>
          match m s with
          | Some (g, len) => g :: findall_from m s' (len - 1)
          | None => findall_from m s' O
          end
      end
  end.

Definition findall (m : string -> option (string * nat)) (s : string)
  : list string := findall_from m s O.

(** [re.findall(r'\{counter(?::([^}]+))?\}', s)] *)
Definition findall_counter : string -> list string :=
  findall (match_optional "counter" not_close).

(** [re.findall(r'\{random(?::(\d+))?\}', s)] *)
Definition findall_random : string -> list string :=
  findall (match_optional "random" isdigit).

(** [re.findall(r'\{([^}]+)\}', s)] *)
Definition findall_variable : string -> list string :=
  findall match_variable.

End Re.


(** ** Numbers: [format(int, spec)], [float], and fixed-point printing *)

Module Num.

(** The digit [d] (below 36) as a character, lower or upper case. *)
Definition digit_char (upper : bool) (d : Z) : ascii :=
  ascii_of_nat (Z.to_nat (if d <? 10 then 48 + d
                          else if upper then 55 + d else 87 + d)).

(** The digits of a non-negative [n] in [base], most significant first. *)
Fixpoint digits_from (fuel : nat) (base : Z) (upper : bool) (n : Z)
    (acc : string) : string :=
  match fuel with
  | O => acc
  | S k =>
      let acc' := String (digit_char upper (n mod base)) acc in
      if n <? base then acc' else digits_from k base upper (n / base) acc'
  end.

Definition in_base (base : Z) (upper : bool) (n : Z) : string :=
  let a := Z.abs n in
  (if n <? 0 then "-" else "") ++
  digits_from (S (Z.to_nat (Z.log2 a))) base upper a EmptyString.

(** The digits of [s] grouped in threes from the right, as the [,] and [_]
    options do. *)
Fixpoint group3 (sep : ascii) (s : string) : string :=
  match s with
  | EmptyString => EmptyString
  | String c s' =>
      let n := String.length s' in
      if ((0 <? n) && (n mod 3 =? 0))%nat
      then String c (String sep (group3 sep s'))
      else String c (group3 sep s')
  end.

Definition grouped (sep : ascii) (n : Z) : string :=
  (if n <? 0 then "-" else "") ++ group3 sep (Py.str (Z.abs n)).

(** What [format(v, spec)] does for an integer [v] and a one-character
    [spec]: a string, a [ValueError] (the one exception [_process_counters]
    handles on the spot), or another exception. *)
Definition format_result : Type := Exc string.

(** The presentation types that leave the integers (the character [c] and the
    floating-point [e E f F g G %]) are not worked out here: they are the
    interpreter's, passed in as [other]. *)
Definition is_float_or_char_type (c : ascii) : bool :=
  existsb (Ascii.eqb c)
    ["c"; "e"; "E"; "f"; "F"; "g"; "G"; "%"]%char.

Definition format_int (other : Z -> ascii -> format_result) (v : Z)
    (c : ascii) : format_result :=
  if is_float_or_char_type c then other v c
  else if existsb (Ascii.eqb c) ["d"; "n"; "0"; "-"; "#"; "<"; ">"; "="; "^"]%char
  then Ok (Py.str v)
  else if Ascii.eqb c "b" then Ok (in_base 2 false v)
  else if Ascii.eqb c "o" then Ok (in_base 8 false v)
  else if Ascii.eqb c "x" then Ok (in_base 16 false v)
  else if Ascii.eqb c "X" then Ok (in_base 16 true v)
  else if Ascii.eqb c "+" then Ok ((if v <? 0 then "" else "+") ++ Py.str v)
  else if Ascii.eqb c " " then Ok ((if v <? 0 then "" else " ") ++ Py.str v)
  else if Ascii.eqb c "," then Ok (grouped "," v)
  else if Ascii.eqb c "_" then Ok (grouped "_" v)
  else if Re.isdigit c
  then Ok (Py.rjust (nat_of_ascii c - 48) " " (Py.str v))
  else Raise ValueError.

(** [int(s)] for a string of decimal digits. *)
Fixpoint int_of_digits (s : string) (acc : Z) : Z :=
  match s with
  | EmptyString => acc
  | String c s' => int_of_digits s' (10 * acc + Z.of_nat (nat_of_ascii c - 48))
  end.

(** *** Floating point

    A [float] is an IEEE double.  The ones this module meets are an integer
    rounded to 53 significant bits, divided by a power of two: they are kept
    exactly, as [num / den] with [den] a power of two. *)

(** The nearest integer with at most 53 significant bits, ties to the even
    significand. *)
Definition round53 (n : Z) : Z :=
  let a := Z.abs n in
  let bits := Z.log2 a + 1 in
  if bits <=? 53 then n
  else
    let sh := bits - 53 in
    let q := Z.shiftr a sh in
    let r := a - Z.shiftl q sh in
    let half := Z.shiftl 1 (sh - 1) in
    let q' := if (half <? r) || ((r =? half) && Z.odd q) then q + 1 else q in
    Z.sgn n * Z.shiftl q' sh.

Inductive number :=
  | Int (n : Z)
  | Float (num den : Z).

(** [float(n)]: [OverflowError] when the rounded value does not fit. *)
Definition to_float (x : number) : Exc (Z * Z) :=
  match x with
  | Int n =>
      let m := round53 n in
      if Z.abs m <? 2 ^ 1024 then Ok (m, 1) else Raise OverflowError
  | Float num den => Ok (num, den)
  end.

(** [x < 1024.0]: Python compares an integer with a float exactly. *)
Definition lt_1024 (x : number) : bool :=
  match x with
  | Int n => n <? 1024
  | Float num den => num <? 1024 * den
  end.

(** [x / 1024.0]: exact, a change of exponent (the values divided here are at
    least 1024, far from underflow). *)
Definition div_1024 (x : number) : Exc number :=
  let! f := to_float x in Ok (Float (fst f) (1024 * snd f)).

(** [n / (1024*1024)] for an integer [n]: the correctly rounded quotient, or
    [OverflowError] when it does not fit. *)
Definition truediv_mb (n : Z) : Exc number :=
  let m := round53 n in
  if Z.abs m <? 2 ^ 1044 then Ok (Float m (1024 * 1024))
  else Raise OverflowError.

(** [num / den], a non-negative fraction, rounded to the nearest integer,
    ties to even. *)
Definition round_half_even (num den : Z) : Z :=
  let q := num / den in
  let r := num mod den in
  if (den <? 2 * r) || ((2 * r =? den) && Z.odd q) then q + 1 else q.

(** [f"{x:.{prec}f}"] for the float [num / den]: the exact value correctly
    rounded to [prec] decimals, with the sign of the value. *)
Definition fixed (prec : nat) (num den : Z) : string :=
  let scale := 10 ^ Z.of_nat prec in
  let t := round_half_even (Z.abs num * scale) den in
  (if num <? 0 then "-" else "") ++ Py.str (t / scale) ++
  match prec with
  | O => ""
  | S _ => "." ++ Py.rjust prec "0" (Py.str (t mod scale))
  end.

(** [f"{x:.{prec}f}"] for an integer or a float [x]. *)
Definition format_f (prec : nat) (x : number) : Exc string :=
  let! f := to_float x in Ok (fixed prec (fst f) (snd f)).

End Num.


(** ** [database.py]: the [users] table as far as the pattern engine uses it *)

Module Database.

(** A row of [users]: the two nullable text columns read by
    [apply_pattern], and the [preferences] column, a JSON object (the table
    gives it the default ['{}']). *)
Record user_row := UserRow {
  username : option string;
  first_name : option string;
  preferences : gmap string Z
}.

Definition set_preferences (u : user_row) (p : gmap string Z) : user_row :=
  {| username := username u; first_name := first_name u; preferences := p |}.

(** What [get_user] reads: the row, or [None].  (The methods themselves, with
    the lock they take, are in [Locked] below.) *)
Definition get_user (db : gmap Z user_row) (user_id : Z) : option user_row :=
  db !! user_id.

(** What [get_user_preference] reads. *)
Definition get_user_preference (db : gmap Z user_row) (user_id : Z)
    (key : string) (default : Z) : Z :=
  match get_user db user_id with
  | None => default
  | Some u =>
      match preferences u !! key with
      | Some v => v
      | None => default
      end
  end.

End Database.

(** ** [utils/patterns.py]: [PatternManager] *)

(** The file descriptor, a dict read with [.get]: a key may be absent. *)
Record file_info := FileInfo {
  fi_name : option string;
  fi_size : option Z;
  fi_type : option string
}.

(** What [datetime.now()] returned, with the Unix time [now.timestamp()]
    truncated to an integer. *)
Record datetime := DateTime {
  year : Z; month : Z; day : Z;
  hour : Z; minute : Z; second : Z;
  epoch : Z
}.

(** What one call of [apply_pattern] reads from outside: the clock (once in
    the body, once more in the handler), [str(uuid.uuid4())], the successive
    results of [random.randint(0, 9)], and the interpreter's formatting of an
    integer under the non-integer presentation types. *)
Record env := Env {
  now : datetime;
  now_handler : datetime;
  uuid4 : string;
  randint : nat -> nat;
  format_other : Z -> ascii -> Num.format_result
}.

(** The mutable part: [self.user_counters] and the database. *)
Record state := State {
  user_counters : gmap string Z;
  db : gmap Z Database.user_row
}.

Definition pad2 (n : Z) : string := Py.rjust 2 "0" (Py.str n).
Definition pad4 (n : Z) : string := Py.rjust 4 "0" (Py.str n).

(** [strftime('%Y%m%d')], [strftime('%H%M%S')], [strftime('%Y%m%d_%H%M%S')] *)
Definition strftime_date (t : datetime) : string :=
  pad4 (year t) ++ pad2 (month t) ++ pad2 (day t).
Definition strftime_time (t : datetime) : string :=
  pad2 (hour t) ++ pad2 (minute t) ++ pad2 (second t).
Definition strftime_datetime (t : datetime) : string :=
  strftime_date t ++ "_" ++ strftime_time t.

(** [str(x)] for a value that is a string or [None]. *)
Definition str_or_none (x : option string) : string :=
  match x with
  | Some s => s
  | None => "None"
  end.

Definition get_default {A : Type} (x : option A) (d : A) : A :=
  match x with
  | Some a => a
  | None => d
  end.

(** [context.update(kwargs)] on dicts kept in insertion order: a key already
    there keeps its place and takes the new value, a new key goes last. *)
Fixpoint dict_set (k v : string) (d : list (string * string))
  : list (string * string) :=
  match d with
  | [] => [(k, v)]
  | (k', v') :: d' =>
      if String.eqb k' k then (k, v) :: d' else (k', v') :: dict_set k v d'
  end.

Definition dict_update (d kwargs : list (string * string))
  : list (string * string) :=
  fold_left (fun acc kv => dict_set (fst kv) (snd kv) acc) kwargs d.

Module PatternManager.

(** The keys of [self.variables]. *)
Definition variables : list string :=
  [ "counter"; "counter:02d"; "counter:03d"; "date"; "time"; "datetime";
    "year"; "month"; "day"; "hour"; "minute"; "second"; "original";
    "original_full"; "ext"; "user"; "username"; "user_id"; "size"; "size_mb";
    "type"; "random"; "random:4"; "random:8"; "uuid"; "timestamp" ].

(** [_remove_extension] *)
Definition _remove_extension (filename : string) : string :=
  if Py.has_char "." filename
  then Py.join "." (Py.init (Py.split "." filename))
  else filename.

(** [_get_extension] *)
Definition _get_extension (filename : string) : string :=
  if Py.has_char "." filename
  then "." ++ Py.last (Py.split "." filename)
  else "".

(** The list [invalid_chars] of [_clean_filename]; the sixth is the double
    quote. *)
Definition double_quote : ascii := Eval cbv in ascii_of_nat 34.

Definition invalid_chars : list ascii :=
  ["/"; "\"; ":"; "*"; "?"]%char ++ [double_quote] ++ ["<"; ">"; "|"]%char.

Definition char_str (c : ascii) : string := String c EmptyString.

(** [while '__' in cleaned: cleaned = cleaned.replace('__', '_')].  Every
    turn of the loop shortens the string, so [fuel = len(cleaned)] turns are
    enough ([collapse_done] below). *)
Fixpoint collapse_loop (fuel : nat) (cleaned : string) : string :=
  match fuel with
  | O => cleaned
  | S k =>
      if Py.contains "__" cleaned
      then collapse_loop k (Py.replace "__" "_" cleaned)
      else cleaned
  end.

Definition collapse (cleaned : string) : string :=
  collapse_loop (String.length cleaned) cleaned.

(** [_clean_filename] *)
Definition _clean_filename (filename : string) : string :=
  let cleaned :=
    fold_left (fun acc c => Py.replace (char_str c) "_" acc)
              invalid_chars filename in
  let cleaned := collapse cleaned in
  let cleaned := Py.strip (Ascii.eqb "_") cleaned in
  if negb (Py.truthy cleaned) then "renamed_file" else cleaned.

(** [_format_size]: the loop over the four units, then the [TB] line. *)
Fixpoint format_size_loop (units : list string) (size_bytes : Num.number)
  : Exc string :=
  match units with
  | [] => let! s := Num.format_f 1 size_bytes in Ok (s ++ "TB")
  | unit :: rest =>
      if Num.lt_1024 size_bytes
      then let! s := Num.format_f 0 size_bytes in Ok (s ++ unit)
      else let! x := Num.div_1024 size_bytes in format_size_loop rest x
  end.

Definition _format_size (size_bytes : Z) : Exc string :=
  if size_bytes =? 0 then Ok "0B"
  else format_size_loop ["B"; "KB"; "MB"; "GB"] (Num.Int size_bytes).

(** [f"{size / (1024*1024):.1f}"] *)
Definition format_size_mb (size_bytes : Z) : Exc string :=
  let! x := Num.truediv_mb size_bytes in Num.format_f 1 x.

(** [_generate_random_number]: [length] draws, from draw number [pos] on. *)
Fixpoint _generate_random_number (e : env) (pos length : nat) : string :=
  match length with
  | O => ""
  | S k =>
      Py.str (Z.of_nat (randint e pos mod 10)) ++
      _generate_random_number e (S pos) k
  end.

(** [_generate_short_uuid] *)
Definition _generate_short_uuid (e : env) : string :=
  Py.take 8 (Py.replace "-" "" (uuid4 e)).

(** [_substitute_variables] *)
Definition _substitute_variables (pattern : string)
    (context : list (string * string)) : string :=
  fold_left (fun result kv => Py.replace ("{" ++ fst kv ++ "}") (snd kv) result)
            context pattern.

(** [_process_random_variables].  [length_spec] is a string, so
    [length_spec[0]] is its first character: on the empty string it raises
    [IndexError], which the method's handler turns into [return pattern];
    otherwise it is a one-character string, hence true, and a digit. *)
Fixpoint process_random_loop (e : env) (pos : nat) (specs : list string)
    (pattern : string) : string :=
  match specs with
  | [] => pattern
  | length_spec :: rest =>
      match index0 length_spec with
      | Raise _ => pattern
      | Ok c =>
          let length := Z.to_nat (Num.int_of_digits (char_str c) 0) in
          let random_value := _generate_random_number e pos length in
          process_random_loop e (pos + length) rest
            (Py.replace ("{random:" ++ char_str c ++ "}") random_value pattern)
      end
  end.

Definition _process_random_variables (e : env) (pos : nat) (pattern : string)
  : string :=
  process_random_loop e pos (Re.findall_random pattern) pattern.

Section WithHash.

(** The interpreter's [hash] on strings. *)
Variable hash : string -> Z.

Definition cache_key (user_id : Z) (pattern : string) : string :=
  Py.str user_id ++ "_" ++ Py.str (hash pattern).

Definition pref_key (pattern : string) : string :=
  "counter_" ++ Py.str (hash pattern).

(** [_get_counter] *)
Definition _get_counter (user_id : Z) (pattern : string) (st : state)
  : Z * state :=
  let key := cache_key user_id pattern in
  match user_counters st !! key with
  | Some v => (v, st)
  | None =>
      let counter_value :=
        Database.get_user_preference (db st) user_id (pref_key pattern) 1 in
      (counter_value,
       {| user_counters := <[key := counter_value]> (user_counters st);
          db := db st |})
  end.

(** [_process_counters].  As above [format_spec[0]] is the first character of
    a string: [IndexError] on the empty one (the handler returns the pattern
    as it stands), otherwise a true value, and the only format ever applied.
    The loop assigns to [pattern], so a later turn reads the counter of the
    rewritten text. *)
Fixpoint process_counters_loop (e : env) (user_id : Z) (specs : list string)
    (pattern : string) (st : state) : string * state :=
  match specs with
  | [] => (pattern, st)
  | format_spec :: rest =>
      let (counter_value, st1) := _get_counter user_id pattern st in
      match index0 format_spec with
      | Raise _ => (pattern, st1)
      | Ok c =>
          let token := "{counter:" ++ char_str c ++ "}" in
          match Num.format_int (format_other e) counter_value c with
          | Ok formatted_counter =>
              process_counters_loop e user_id rest
                (Py.replace token formatted_counter pattern) st1
          | Raise ValueError =>
              process_counters_loop e user_id rest
                (Py.replace token (Py.str counter_value) pattern) st1
          | Raise _ => (pattern, st1)
          end
      end
  end.

Definition _process_counters (e : env) (pattern : string) (user_id : Z)
    (st : state) : string * state :=
  process_counters_loop e user_id (Re.findall_counter pattern) pattern st.

(** The context dict of [apply_pattern], values already passed through
    [str]; building it raises when the size does not fit a float. *)
Definition build_context (e : env) (file : file_info) (user_id : Z)
    (st : state) : Exc (list (string * string)) :=
  let user := Database.get_user (db st) user_id in
  let user_name :=
    match user with
    | Some u => Database.first_name u
    | None => Some "User"
    end in
  let username :=
    match user with
    | Some u => Database.username u
    | None => Some ""
    end in
  let original_name := get_default (fi_name file) "file" in
  let original_without_ext := _remove_extension original_name in
  let file_ext := _get_extension original_name in
  let! size := _format_size (get_default (fi_size file) 0) in
  let! size_mb := format_size_mb (get_default (fi_size file) 0) in
  Ok [ ("date", strftime_date (now e));
       ("time", strftime_time (now e));
       ("datetime", strftime_datetime (now e));
       ("year", pad4 (year (now e)));
       ("month", pad2 (month (now e)));
       ("day", pad2 (day (now e)));
       ("hour", pad2 (hour (now e)));
       ("minute", pad2 (minute (now e)));
       ("second", pad2 (second (now e)));
       ("original", original_without_ext);
       ("original_full", original_name);
       ("ext", file_ext);
       ("user", str_or_none user_name);
       ("username",
         str_or_none (match username with
                      | Some (String _ _) => username
                      | _ => user_name
                      end));
       ("user_id", Py.str user_id);
       ("size", size);
       ("size_mb", size_mb);
       ("type", get_default (fi_type file) "file");
       ("timestamp", Py.str (epoch (now e)));
       ("uuid", _generate_short_uuid e);
       ("random", _generate_random_number e 0 6) ].

(** The name built by the handler of [apply_pattern]. *)
Definition fallback_name (e : env) (file : file_info) : string :=
  let original := _remove_extension (get_default (fi_name file) "file") in
  let ext := _get_extension (get_default (fi_name file) "") in
  original ++ "_" ++ strftime_datetime (now_handler e) ++ ext.

(** The default [sample_file_info] of [get_pattern_preview]. *)
Definition sample_file_info : file_info :=
  {| fi_name := Some "sample_video.mp4";
     fi_size := Some (150 * 1024 * 1024);
     fi_type := Some "video" |}.

End WithHash.

(** [validate_pattern] *)
Fixpoint check_variables (vars : list string) : option string :=
  match vars with
  | [] => None
  | var :: rest =>
      let base_var := hd "" (Py.split ":" var) in
      if negb (existsb (String.eqb base_var) variables) &&
         negb (String.eqb base_var "counter" || String.eqb base_var "random")
      then Some ("Unknown variable: {" ++ var ++ "}")
      else check_variables rest
  end.

Definition validate_pattern (pattern : string) : bool * string :=
  if negb (Py.truthy pattern) || negb (Py.truthy (Py.strip Py.isspace pattern))
  then (false, "Pattern cannot be empty")
  else if negb (Py.count "{" pattern =? Py.count "}" pattern)%nat
  then (false, "Unmatched braces in pattern")
  else
    match check_variables (Re.findall_variable pattern) with
    | Some msg => (false, msg)
    | None =>
        let test_result := _clean_filename pattern in
        if negb (Py.truthy test_result)
        then (false, "Pattern would result in invalid filename")
        else (true, "Valid pattern")
    end.

End PatternManager.


Import PatternManager.

(** ** Definitions used in the statements *)

Definition underscore : ascii -> bool := Ascii.eqb "_".

(** Every character of the string satisfies [p]. *)
Fixpoint all_chars (p : ascii -> bool) (s : string) : bool :=
  match s with
  | EmptyString => true
  | String c s' => p c && all_chars p s'
  end.

(** The first character, if any, is not one of the stripped ones. *)
Definition head_kept (p : ascii -> bool) (s : string) : bool :=
  match s with
  | EmptyString => true
  | String c _ => negb (p c)
  end.

Definition replace_invalid (cs : list ascii) (s : string) : string :=
  fold_left (fun acc c => Py.replace (char_str c) "_" acc) cs s.

(** A string free of the nine characters. *)
Definition no_invalid (s : string) : Prop :=
  forall c, In c invalid_chars -> Py.has_char c s = false.

(** The text before the final emptiness test of [_clean_filename]. *)
Definition cleaned_text (filename : string) : string :=
  Py.strip underscore (collapse (replace_invalid invalid_chars filename)).

(** The size of the file fits a float, so that building the context
    succeeds. *)
Definition size_fits (file : file_info) : bool :=
  match _format_size (get_default (fi_size file) 0),
        format_size_mb (get_default (fi_size file) 0) with
  | Ok _, Ok _ => true
  | _, _ => false
  end.

(** The steps of [apply_pattern] after the counters. *)
Definition finish (e : env) (file : file_info)
    (kwargs context : list (string * string)) (pattern_with_counters : string)
  : string :=
  let file_ext := _get_extension (get_default (fi_name file) "file") in
  let result :=
    _clean_filename
      (_substitute_variables
         (_process_random_variables e 6 pattern_with_counters)
         (dict_update context kwargs)) in
  if negb (Py.endswith result file_ext) && Py.truthy file_ext
  then result ++ file_ext else result.

Section StatementsWithHash.

Variable hash : string -> Z.

(** The value the next [_get_counter] returns. *)
Definition counter_of (user_id : Z) (pattern : string) (st : state) : Z :=
  fst (_get_counter hash user_id pattern st).

End StatementsWithHash.

(** The [{size}] text as the specification words it: binary units, one
    decimal place, the units B, KB, MB and GB, and no unit beyond GB. *)
Definition size_as_specified (n : Z) : string :=
  if n <? 1024 then Num.fixed 1 n 1 ++ "B"
  else if n <? 1024 ^ 2 then Num.fixed 1 n 1024 ++ "KB"
  else if n <? 1024 ^ 3 then Num.fixed 1 n (1024 ^ 2) ++ "MB"
  else Num.fixed 1 n (1024 ^ 3) ++ "GB".

(** [num / den] to the nearest tenth, written with one decimal. *)
Definition one_decimal (num den : Z) : string :=
  let tenths := Num.round_half_even (10 * num) den in
  Py.str (tenths / 10) ++ "." ++ Py.str (tenths mod 10).

(** The [{size}] text the code produces, in words: ["0B"]; the plain count
    below 1024; then the count over 1024, 1024² or 1024³ rounded to an
    integer, while below 1024 of that unit; from 1024⁴ on, the count over
    1024⁴ with one decimal and the unit TB. *)
Definition size_text (n : Z) : string :=
  if n =? 0 then "0B"
  else if n <? 1024 then Py.str n ++ "B"
  else if n <? 1024 ^ 2 then Py.str (Num.round_half_even n 1024) ++ "KB"
  else if n <? 1024 ^ 3 then Py.str (Num.round_half_even n (1024 ^ 2)) ++ "MB"
  else if n <? 1024 ^ 4 then Py.str (Num.round_half_even n (1024 ^ 3)) ++ "GB"
  else one_decimal n (1024 ^ 4) ++ "TB".

Definition size_mb_text (n : Z) : string := one_decimal n (1024 ^ 2).

(** Sample data for the concrete instances. *)

Definition sample_env : env :=
  {| now := DateTime 2025 8 24 9 5 7 1756026307;
     now_handler := DateTime 2025 8 24 9 5 8 1756026308;
     uuid4 := "123e4567-e89b-12d3-a456-426614174000";
     randint := fun i => (3 * i + 1)%nat;
     format_other := fun _ _ => Raise ValueError |}.

Definition sample_hash (s : string) : Z := Z.of_nat (String.length s) - 7.

Definition empty_state : state := {| user_counters := ∅; db := ∅ |}.

Definition report_pdf : file_info :=
  {| fi_name := Some "report.pdf"; fi_size := Some 2048;
     fi_type := Some "document" |}.

Definition movie_mp4 : file_info :=
  {| fi_name := Some "movie.mp4"; fi_size := Some 734003200;
     fi_type := Some "video" |}.

Definition user_seven : Database.user_row :=
  {| Database.username := Some "ann"; Database.first_name := Some "Ann";
     Database.preferences := ∅ |}.

Definition registered_state : state :=
  {| user_counters := ∅; db := {[ 7 := user_seven ]} |}.

(** ** Further definitions: the rest of the two classes *)

(** The only texts [_process_counters] and [_process_random_variables] ever
    look for. *)
Definition short_counter_token (c : ascii) : string :=
  "{counter:" ++ char_str c ++ "}".

Definition short_random_token (c : ascii) : string :=
  "{random:" ++ char_str c ++ "}".

(** [self.templates], which [get_pattern_templates] returns a copy of. *)
Definition templates : list (string * string) :=
  [ ("movie_collection", "Movie_{counter:02d}_{original}");
    ("tv_series", "Series_S{season:02d}E{episode:02d}_{title}");
    ("date_based", "{date}_{time}_{original}");
    ("user_files", "{user}_{counter}_{original}");
    ("numbered_sequence", "{original}_{counter:03d}");
    ("timestamped", "{timestamp}_{original}");
    ("categorized", "{type}_{date}_{original}");
    ("professional", "{year}{month}{day}_{counter:04d}_{original}") ].

(** *** The database lock

    [Database.lock] is a [threading.Lock]: acquiring it while it is held
    blocks, also for the thread that holds it, and nothing but the end of a
    [with] block releases it.  The definitions above are the steps that do
    not write and what the reads see; here the lock is part of the state, and
    a call either returns or blocks for good. *)

Module Locked.

(** A row of [rename_patterns] ([created_at] is not read anywhere). *)
Record pattern_row := PatternRow {
  pattern_id : Z;
  owner_id : Z;
  pattern_name : string;
  pattern_template : string;
  is_global : bool;
  usage_count : Z
}.

(** The counters and the [users] table as before, the [rename_patterns]
    table in row order with the largest id given so far (the table is
    [AUTOINCREMENT]), and whether the lock is held. *)
Record world := World {
  plain : state;
  rename_patterns : list pattern_row;
  last_pattern_id : Z;
  held : bool
}.

Definition set_held (h : bool) (w : world) : world :=
  {| plain := plain w; rename_patterns := rename_patterns w;
     last_pattern_id := last_pattern_id w; held := h |}.

Definition set_plain (st : state) (w : world) : world :=
  {| plain := st; rename_patterns := rename_patterns w;
     last_pattern_id := last_pattern_id w; held := held w |}.

Definition set_users (d : gmap Z Database.user_row) (w : world) : world :=
  set_plain {| user_counters := user_counters (plain w); db := d |} w.

Definition set_counters (c : gmap string Z) (w : world) : world :=
  set_plain {| user_counters := c; db := db (plain w) |} w.

Definition set_patterns (rows : list pattern_row) (last : Z) (w : world)
  : world :=
  {| plain := plain w; rename_patterns := rows; last_pattern_id := last;
     held := held w |}.

Inductive outcome (A : Type) : Type :=
  | Returns (a : A) (w : world)
  | Blocks.
Arguments Returns {A} a w.
Arguments Blocks {A}.

Definition and_then {A B : Type} (m : world -> outcome A)
    (k : A -> world -> outcome B) : world -> outcome B :=
  fun w =>
    match m w with
    | Returns a w' => k a w'
    | Blocks => Blocks
    end.

Notation "'call!' x ':=' m 'in' k" := (and_then m (fun x => k))
  (at level 10, x name, m at level 100, k at level 200).

(** [with self.lock: body] *)
Definition with_lock {A : Type} (body : world -> outcome A)
  : world -> outcome A :=
  fun w =>
    if held w then Blocks
    else
      match body (set_held true w) with
      | Returns a w' => Returns a (set_held false w')
      | Blocks => Blocks
      end.

(** **** [Database] *)

(** [get_user] *)
Definition get_user (user_id : Z) : world -> outcome (option Database.user_row) :=
  with_lock (fun w => Returns (db (plain w) !! user_id) w).

(** [add_user]: [INSERT OR REPLACE] with the columns [user_id], [username],
    [first_name], [last_name], [last_activity]: a row with that id is deleted
    first, and the new row has the defaults in its other columns, ['{}'] for
    [preferences]. *)
Definition add_user (user_id : Z) (username first_name : option string)
  : world -> outcome unit :=
  with_lock (fun w =>
    Returns tt
      (set_users
         (<[user_id := Database.UserRow username first_name ∅]> (db (plain w)))
         w)).

(** [set_user_preference]: [get_user] is called inside the [with] block. *)
Definition set_user_preference (user_id : Z) (key : string) (value : Z)
  : world -> outcome bool :=
  with_lock (
    call! user := get_user user_id in
    fun w =>
      match user with
      | None => Returns false w
      | Some u =>
          Returns true
            (set_users
               (<[user_id := Database.set_preferences u
                               (<[key := value]> (Database.preferences u))]>
                  (db (plain w)))
               w)
      end).

(** [get_user_preference] *)
Definition get_user_preference (user_id : Z) (key : string) (default : Z)
  : world -> outcome Z :=
  call! user := get_user user_id in
  fun w =>
    Returns
      match user with
      | None => default
      | Some u => get_default (Database.preferences u !! key) default
      end w.

(** [add_rename_pattern] *)
Definition add_rename_pattern (user_id : Z) (name template : string)
    (global : bool) : world -> outcome bool :=
  with_lock (fun w =>
    let id := last_pattern_id w + 1 in
    Returns true
      (set_patterns
         (rename_patterns w ++
          [ {| pattern_id := id; owner_id := user_id; pattern_name := name;
               pattern_template := template; is_global := global;
               usage_count := 0 |} ])
         id w)).

(** [ORDER BY usage_count DESC, pattern_name]: the order of two rows. *)
Definition row_before (a b : pattern_row) : bool :=
  (usage_count b <? usage_count a) ||
  ((usage_count a =? usage_count b) &&
   String.leb (pattern_name a) (pattern_name b)).

Fixpoint insert_row (r : pattern_row) (rows : list pattern_row)
  : list pattern_row :=
  match rows with
  | [] => [r]
  | x :: rest => if row_before x r then x :: insert_row r rest else r :: rows
  end.

(** A stable insertion sort: rows equal in both columns stay in table order,
    the order in which SQLite returns them. *)
Definition order_rows (rows : list pattern_row) : list pattern_row :=
  fold_left (fun sorted r => insert_row r sorted) rows [].

Definition row_order (a b : pattern_row) : Prop := row_before a b = true.

Definition visible_to (user_id : Z) (r : pattern_row) : bool :=
  (owner_id r =? user_id) || is_global r.

(** [get_user_patterns] *)
Definition get_user_patterns (user_id : Z)
  : world -> outcome (list pattern_row) :=
  with_lock (fun w =>
    Returns
      (order_rows (List.filter (visible_to user_id) (rename_patterns w))) w).

(** **** [PatternManager] *)

Section WithHash.

Variable hash : string -> Z.

(** [_get_counter] *)
Definition _get_counter (user_id : Z) (pattern : string)
  : world -> outcome Z :=
  fun w =>
    let key := cache_key hash user_id pattern in
    match user_counters (plain w) !! key with
    | Some v => Returns v w
    | None =>
        (call! counter_value :=
           get_user_preference user_id (pref_key hash pattern) 1 in
         fun w1 =>
           Returns counter_value
             (set_counters (<[key := counter_value]> (user_counters (plain w1)))
                w1)) w
    end.

(** [_increment_counter] *)
Definition _increment_counter (user_id : Z) (pattern : string)
  : world -> outcome unit :=
  call! current_value := _get_counter user_id pattern in
  fun w =>
    let new_value := current_value + 1 in
    (call! _ :=
       set_user_preference user_id (pref_key hash pattern) new_value in
     fun w2 => Returns tt w2)
      (set_counters
         (<[cache_key hash user_id pattern := new_value]>
            (user_counters (plain w)))
         w).

(** [_process_counters] *)
Fixpoint process_counters_loop (e : env) (user_id : Z) (specs : list string)
    (pattern : string) : world -> outcome string :=
  match specs with
  | [] => fun w => Returns pattern w
  | format_spec :: rest =>
      call! counter_value := _get_counter user_id pattern in
      match index0 format_spec with
      | Raise _ => fun w => Returns pattern w
      | Ok c =>
          let token := "{counter:" ++ char_str c ++ "}" in
          match Num.format_int (format_other e) counter_value c with
          | Ok formatted_counter =>
              process_counters_loop e user_id rest
                (Py.replace token formatted_counter pattern)
          | Raise ValueError =>
              process_counters_loop e user_id rest
                (Py.replace token (Py.str counter_value) pattern)
          | Raise _ => fun w => Returns pattern w
          end
      end
  end.

Definition _process_counters (e : env) (pattern : string) (user_id : Z)
  : world -> outcome string :=
  process_counters_loop e user_id (Re.findall_counter pattern) pattern.

(** [apply_pattern]: [get_user], the rest of the context (no further call
    of the database), the counters, the steps with no effect, and the
    increment. *)
Definition apply_pattern (e : env) (pattern : string) (file : file_info)
    (user_id : Z) (kwargs : list (string * string))
  : world -> outcome string :=
  call! _ := get_user user_id in
  fun w =>
    match build_context e file user_id (plain w) with
    | Raise _ => Returns (fallback_name e file) w
    | Ok context =>
        (call! pattern_with_counters := _process_counters e pattern user_id in
         let result := finish e file kwargs context pattern_with_counters in
         call! _ := _increment_counter user_id pattern in
         fun w2 => Returns result w2) w
    end.

(** [get_pattern_preview]: the [finally] clause runs when the call returns. *)
Definition get_pattern_preview (e : env) (pattern : string) (user_id : Z)
    (sample : option file_info) : world -> outcome string :=
  fun w =>
    let original_counters := user_counters (plain w) in
    (call! result :=
       apply_pattern e pattern (get_default sample sample_file_info)
         user_id [] in
     fun w' => Returns result (set_counters original_counters w')) w.

(** [reset_user_counters] *)
Definition reset_user_counters (user_id : Z) : world -> outcome bool :=
  fun w =>
    let kept :=
      filter (fun kv : string * Z =>
                Py.startswith (Py.str user_id ++ "_") (fst kv) = false)
             (user_counters (plain w)) in
    (call! user_prefs := get_user user_id in
     match user_prefs with
     | Some u =>
         let preferences :=
           filter (fun kv : string * Z =>
                     Py.startswith "counter_" (fst kv) = false)
                  (Database.preferences u) in
         call! _ :=
           with_lock (fun w1 =>
             Returns tt
               (set_users
                  (<[user_id := Database.set_preferences u preferences]>
                     (db (plain w1)))
                  w1)) in
         fun w2 => Returns true w2
     | None => fun w1 => Returns true w1
     end) (set_counters kept w).

End WithHash.

(** [save_user_pattern] *)
Definition save_user_pattern (user_id : Z) (pattern_name : string)
    (pattern_template : string) : world -> outcome bool :=
  if fst (validate_pattern pattern_template)
  then add_rename_pattern user_id pattern_name pattern_template false
  else fun w => Returns false w.

(** [delete_user_pattern]: [DELETE ... WHERE id = ? AND user_id = ?], and
    whether a row went. *)
Definition deleted_by (user_id pattern_id' : Z) (r : pattern_row) : bool :=
  (pattern_id r =? pattern_id') && (owner_id r =? user_id).

Definition delete_user_pattern (user_id pattern_id' : Z)
  : world -> outcome bool :=
  with_lock (fun w =>
    Returns
      (existsb (deleted_by user_id pattern_id') (rename_patterns w))
      (set_patterns
         (List.filter (fun r => negb (deleted_by user_id pattern_id' r))
                      (rename_patterns w))
         (last_pattern_id w) w)).

(** [increment_pattern_usage]: [UPDATE ... SET usage_count = usage_count + 1
    WHERE id = ?]. *)
Definition bump_usage (pattern_id' : Z) (r : pattern_row) : pattern_row :=
  if pattern_id r =? pattern_id'
  then {| pattern_id := pattern_id r; owner_id := owner_id r;
          pattern_name := pattern_name r;
          pattern_template := pattern_template r;
          is_global := is_global r; usage_count := usage_count r + 1 |}
  else r.

Definition increment_pattern_usage (pattern_id' : Z)
  : world -> outcome unit :=
  with_lock (fun w =>
    Returns tt
      (set_patterns (List.map (bump_usage pattern_id') (rename_patterns w))
         (last_pattern_id w) w)).

End Locked.

(** Sample data for the lock-aware instances: user 7 with a stored and
    cached counter, and three saved patterns. *)
Definition stored_row : Database.user_row :=
  {| Database.username := Some "ann"; Database.first_name := Some "Ann";
     Database.preferences := {[ pref_key sample_hash "{counter:d}" := 4 ]} |}.

Definition sample_world : Locked.world :=
  {| Locked.plain :=
       {| user_counters := {[ cache_key sample_hash 7 "{counter:d}" := 4 ]};
          db := {[ 7 := stored_row ]} |};
     Locked.rename_patterns :=
       [ Locked.PatternRow 1 7 "mine" "{date}_{original}" false 2;
         Locked.PatternRow 2 9 "theirs" "{user}_{original}" false 0;
         Locked.PatternRow 3 9 "shared" "{type}_{original}" true 5 ];
     Locked.last_pattern_id := 3;
     Locked.held := false |}.

(** User 7 with a row and nothing stored or cached, no saved pattern, the
    lock free. *)
Definition registered_world : Locked.world :=
  {| Locked.plain := registered_state;
     Locked.rename_patterns := [];
     Locked.last_pattern_id := 0;
     Locked.held := false |}.



(** What [AUTOINCREMENT] keeps: no stored id is above the largest id given
    so far, and no id is stored twice. *)
Definition ids_bounded (w : Locked.world) : Prop :=
  Forall (fun r => Locked.pattern_id r <= Locked.last_pattern_id w)
         (Locked.rename_patterns w).

Definition ids_distinct (w : Locked.world) : Prop :=
  List.NoDup (List.map Locked.pattern_id (Locked.rename_patterns w)).

#[local] Arguments Py.replace : simpl never.

(** * Properties *)

(** ** Strings *)

Section StringFacts.

Lemma append_nil_r (s : string) : s ++ "" = s.
Proof. induction s as [|c s IH]; simpl; [reflexivity | now rewrite IH]. Qed.

Lemma append_cons (c : ascii) (a b : string) :
  String c a ++ b = String c (a ++ b).
Proof. reflexivity. Qed.

Lemma append_assoc (a b c : string) : (a ++ b) ++ c = a ++ b ++ c.
Proof. induction a as [|x a IH]; simpl; [reflexivity | now rewrite IH]. Qed.

Lemma length_append (a b : string) :
  String.length (a ++ b) = (String.length a + String.length b)%nat.
Proof. induction a as [|x a IH]; simpl; [reflexivity | now rewrite IH]. Qed.

Lemma drop_append (a b : string) : Py.drop (String.length a) (a ++ b) = b.
Proof. induction a as [|x a IH]; simpl; [now destruct b | exact IH]. Qed.

Lemma append_drop_take (n : nat) (s : string) : Py.take n s ++ Py.drop n s = s.
Proof.
  revert s; induction n as [|n IH]; intros [|c s]; simpl; try reflexivity.
  now rewrite IH.
Qed.

(** [endswith] is what it says: the string is something followed by the
    suffix. *)
Lemma endswith_append (a suffix : string) : Py.endswith (a ++ suffix) suffix = true.
Proof.
  unfold Py.endswith. rewrite length_append.
  replace (String.length a + String.length suffix - String.length suffix)%nat
    with (String.length a) by lia.
  rewrite drop_append, String.eqb_refl.
  rewrite andb_true_r. apply Nat.leb_le. lia.
Qed.

Lemma endswith_true (s suffix : string) :
  Py.endswith s suffix = true -> exists a, s = a ++ suffix.
Proof.
  unfold Py.endswith. intros H. apply andb_true_iff in H as [_ H].
  apply String.eqb_eq in H.
  assert (Hcut : forall n, Py.drop n s = suffix -> s = Py.take n s ++ suffix)
    by (intros n <-; symmetry; apply append_drop_take).
  eexists. apply Hcut. exact H.
Qed.

End StringFacts.

(** ** Splitting off the extension *)

Section Extension.

Variable sep : ascii.

Lemma split_not_nil (s : string) : Py.split sep s <> [].
Proof.
  destruct s as [|c s]; simpl; [discriminate|].
  destruct (Ascii.eqb c sep); [discriminate|].
  destruct (Py.split sep s); discriminate.
Qed.

Lemma join_cons (f : string) (fs : list string) :
  fs <> [] ->
  Py.join (String sep "") (f :: fs) = f ++ String sep (Py.join (String sep "") fs).
Proof. destruct fs; [congruence | reflexivity]. Qed.

(** Joining the fields with the separator gives the string back. *)
Lemma join_split (s : string) : Py.join (String sep "") (Py.split sep s) = s.
Proof.
  induction s as [|c s IH]; simpl; [reflexivity|].
  destruct (Ascii.eqb_spec c sep) as [->|Hne].
  - rewrite join_cons by apply split_not_nil. simpl. now rewrite IH.
  - pose proof (split_not_nil s) as Hnil.
    destruct (Py.split sep s) as [|f fs]; [congruence|].
    destruct fs as [|g fs]; simpl in *; now rewrite <- IH.
Qed.

Lemma split_two_fields (s : string) :
  Py.has_char sep s = true -> (2 <= length (Py.split sep s))%nat.
Proof.
  induction s as [|c s IH]; simpl; [discriminate|].
  destruct (Ascii.eqb c sep); simpl.
  - intros _. pose proof (split_not_nil s).
    destruct (Py.split sep s); simpl; [congruence | lia].
  - intros H. specialize (IH H).
    destruct (Py.split sep s); simpl in *; lia.
Qed.

Lemma last_split_no_sep (s : string) :
  Py.has_char sep (Py.last (Py.split sep s)) = false.
Proof.
  unfold Py.last. induction s as [|c s IH]; simpl; [reflexivity|].
  destruct (Ascii.eqb c sep) eqn:Hc.
  - pose proof (split_not_nil s).
    destruct (Py.split sep s); [congruence | exact IH].
  - pose proof (split_not_nil s).
    destruct (Py.split sep s) as [|f [|g fs]]; [congruence | |exact IH].
    simpl in *. now rewrite Hc, IH.
Qed.

(** All fields but the last, then the separator, then the last field. *)
Lemma join_init_last (fields : list string) :
  (2 <= length fields)%nat ->
  Py.join (String sep "") (Py.init fields) ++ String sep (Py.last fields) =
  Py.join (String sep "") fields.
Proof.
  unfold Py.init, Py.last.
  induction fields as [|f fs IH]; simpl; [lia|].
  intros Hlen. destruct fs as [|g fs]; [simpl in Hlen; lia|].
  destruct fs as [|h fs]; [reflexivity|].
  assert (Hlen' : (2 <= length (g :: h :: fs))%nat) by (simpl; lia).
  specialize (IH Hlen').
  change (removelast (f :: g :: h :: fs)) with (f :: removelast (g :: h :: fs)).
  change (List.last (f :: g :: h :: fs) "") with (List.last (g :: h :: fs) "").
  rewrite (join_cons f (removelast (g :: h :: fs)))
    by (simpl; destruct fs; discriminate).
  rewrite append_assoc, append_cons, IH. reflexivity.
Qed.

End Extension.

(** C10. [_remove_extension(f) + _get_extension(f) == f] for every file name
    [f].  Without a dot the two parts are [f] and the empty string; with one
    they are the text before the last dot and the dot with the text after
    it, which has no dot.  So [".bashrc"] has an empty stem, and a name
    ending in a dot has the extension ["."]. *)
Theorem extension_split_exact (f : string) :
  _remove_extension f ++ _get_extension f = f /\
  (if Py.has_char "." f
   then exists a b, f = a ++ "." ++ b /\ Py.has_char "." b = false /\
                    _remove_extension f = a /\ _get_extension f = "." ++ b
   else _remove_extension f = f /\ _get_extension f = "") /\
  (_remove_extension ".bashrc" = "" /\ _get_extension ".bashrc" = ".bashrc") /\
  (_remove_extension "notes." = "notes" /\ _get_extension "notes." = ".").
Proof.
  assert (Hdot : Py.has_char "." f = true ->
            Py.join "." (Py.init (Py.split "." f)) ++
            "." ++ Py.last (Py.split "." f) = f).
  { intros H. change ("." ++ Py.last (Py.split "." f))
      with (String "." (Py.last (Py.split "." f))).
    rewrite (join_init_last "." _ (split_two_fields "." f H)).
    apply join_split. }
  unfold _remove_extension, _get_extension.
  destruct (Py.has_char "." f) eqn:H.
  - specialize (Hdot eq_refl). repeat split; try reflexivity.
    + exact Hdot.
    + eexists _, _. repeat split; [symmetry; exact Hdot|].
      apply last_split_no_sep.
  - repeat split; try reflexivity. apply append_nil_r.
Qed.

(** ** The sanitiser *)

Section Sanitizer.

(** Replacing one character by an underscore. *)
Lemma replace_char_absent (c : ascii) (new s : string) :
  Py.has_char c s = false -> Py.replace (char_str c) new s = s.
Proof.
  unfold Py.replace, char_str.
  induction s as [|a s IH]; simpl; [reflexivity|].
  intros H. apply orb_false_iff in H as [Ha Hs].
  rewrite Ascii.eqb_sym, Ha. simpl. now rewrite (IH Hs).
Qed.

Lemma replace_char_clears (c : ascii) (s : string) :
  c <> "_"%char -> Py.has_char c (Py.replace (char_str c) "_" s) = false.
Proof.
  intros Hc. unfold Py.replace, char_str.
  induction s as [|a s IH]; simpl; [reflexivity|].
  destruct (Ascii.eqb_spec c a) as [<-|Hne]; simpl.
  - rewrite IH, orb_false_r. now apply Ascii.eqb_neq.
  - rewrite IH, orb_false_r. apply Ascii.eqb_neq. congruence.
Qed.

Lemma replace_char_keeps_absent (c c0 : ascii) (s : string) :
  c <> "_"%char -> Py.has_char c s = false ->
  Py.has_char c (Py.replace (char_str c0) "_" s) = false.
Proof.
  intros Hc. unfold Py.replace, char_str.
  induction s as [|a s IH]; simpl; [reflexivity|].
  intros H. apply orb_false_iff in H as [Ha Hs].
  destruct (Ascii.eqb c0 a); simpl; rewrite (IH Hs), orb_false_r.
  - now apply Ascii.eqb_neq.
  - exact Ha.
Qed.

Lemma replace_invalid_keeps_absent (cs : list ascii) (c : ascii) (s : string) :
  c <> "_"%char -> Py.has_char c s = false ->
  Py.has_char c (replace_invalid cs s) = false.
Proof.
  intros Hc. revert s. induction cs as [|c0 cs IH]; simpl; intros s H.
  - exact H.
  - apply IH. now apply replace_char_keeps_absent.
Qed.

Lemma replace_invalid_clears (cs : list ascii) (s : string) (c : ascii) :
  ~ In "_"%char cs -> In c cs -> Py.has_char c (replace_invalid cs s) = false.
Proof.
  revert s. induction cs as [|c0 cs IH]; simpl; intros s Hu Hin; [tauto|].
  destruct (Ascii.eqb_spec c0 c) as [->|Hne].
  - apply replace_invalid_keeps_absent; [intuition congruence|].
    apply replace_char_clears. intuition congruence.
  - apply IH; tauto.
Qed.

Lemma replace_invalid_fixed (cs : list ascii) (s : string) :
  (forall c, In c cs -> Py.has_char c s = false) -> replace_invalid cs s = s.
Proof.
  induction cs as [|c0 cs IH]; intros H; [reflexivity|].
  unfold replace_invalid in *. cbn [fold_left].
  rewrite replace_char_absent by (apply H; now left).
  apply IH. intros c Hc. apply H. now right.
Qed.

Lemma underscore_valid : ~ In "_"%char invalid_chars.
Proof. unfold invalid_chars. simpl. intuition discriminate. Qed.

(** One pass of [replace('__', '_')]. *)
Lemma startswith_pair (a : ascii) (s : string) :
  Py.startswith "__" (String a s) = true ->
  a = "_"%char /\ exists s', s = String "_" s'.
Proof.
  cbn [Py.startswith]. intros H. apply andb_true_iff in H as [Ha Hs].
  apply Ascii.eqb_eq in Ha. split; [congruence|].
  destruct s as [|b s']; [discriminate|].
  apply andb_true_iff in Hs as [Hb _]. apply Ascii.eqb_eq in Hb.
  exists s'. congruence.
Qed.

Lemma replace_pair_length (s : string) (skip : nat) :
  (String.length (Py.replace_from "__" "_" s skip) <= String.length s)%nat.
Proof.
  revert skip. induction s as [|a s IH]; intros skip; [simpl; lia|].
  cbn [Py.replace_from]. destruct skip as [|k].
  - destruct (Py.startswith "__" (String a s)).
    + specialize (IH 1%nat). simpl in *. lia.
    + specialize (IH 0%nat). simpl. lia.
  - specialize (IH k). simpl. lia.
Qed.

Lemma replace_pair_shrinks (s : string) :
  Py.contains "__" s = true ->
  (String.length (Py.replace "__" "_" s) < String.length s)%nat.
Proof.
  unfold Py.replace.
  induction s as [|a s IH]; [discriminate|].
  cbn [Py.contains Py.replace_from]. intros H.
  destruct (Py.startswith "__" (String a s)) eqn:Hs.
  - apply startswith_pair in Hs as [-> [s' ->]].
    pose proof (replace_pair_length s' 0). simpl in *. lia.
  - simpl in H. specialize (IH H). simpl. lia.
Qed.

Lemma replace_pair_chars (c : ascii) (s : string) (skip : nat) :
  Py.has_char c (Py.replace_from "__" "_" s skip) = true ->
  Py.has_char c s = true.
Proof.
  revert skip. induction s as [|a s IH]; intros skip; [trivial|].
  cbn [Py.replace_from]. destruct skip as [|k].
  - destruct (Py.startswith "__" (String a s)) eqn:Hs.
    + apply startswith_pair in Hs as [-> [s' ->]].
      cbn [String.append Py.has_char Py.replace_from].
      intros H. apply orb_true_iff in H as [H|H]; [now rewrite H|].
      apply (IH 1%nat) in H. cbn [Py.has_char] in H.
      rewrite H. apply orb_true_r.
    + cbn [Py.has_char].
      intros H. apply orb_true_iff in H as [H|H]; [now rewrite H|].
      apply (IH 0%nat) in H. rewrite H. apply orb_true_r.
  - cbn [Py.has_char]. intros H. apply IH in H. rewrite H. apply orb_true_r.
Qed.

(** The loop stops because no pair is left, not because the fuel ran out. *)
Lemma collapse_loop_done (fuel : nat) (s : string) :
  (String.length s <= fuel)%nat ->
  Py.contains "__" (collapse_loop fuel s) = false.
Proof.
  revert s. induction fuel as [|k IH]; intros s Hlen.
  - destruct s; [reflexivity | simpl in Hlen; lia].
  - simpl. destruct (Py.contains "__" s) eqn:Hc; [|exact Hc].
    apply IH. pose proof (replace_pair_shrinks s Hc). lia.
Qed.

Lemma collapse_done (s : string) : Py.contains "__" (collapse s) = false.
Proof. apply collapse_loop_done. lia. Qed.

Lemma collapse_loop_chars (c : ascii) (fuel : nat) (s : string) :
  Py.has_char c s = false -> Py.has_char c (collapse_loop fuel s) = false.
Proof.
  revert s. induction fuel as [|k IH]; intros s H; simpl; [exact H|].
  destruct (Py.contains "__" s); [|exact H].
  apply IH. destruct (Py.has_char c (Py.replace "__" "_" s)) eqn:E; [|reflexivity].
  apply replace_pair_chars in E. congruence.
Qed.

Lemma collapse_fixed (s : string) :
  Py.contains "__" s = false -> collapse s = s.
Proof.
  unfold collapse. destruct (String.length s); simpl; [reflexivity|].
  now intros ->.
Qed.

End Sanitizer.

(** ** Stripping *)

Section Strip.

Variable p : ascii -> bool.

Lemma lstrip_head_kept (s : string) : head_kept p (Py.lstrip p s) = true.
Proof.
  induction s as [|c s IH]; simpl; [reflexivity|].
  destruct (p c) eqn:Hc; [exact IH | simpl; now rewrite Hc].
Qed.

Lemma lstrip_fixed (s : string) : head_kept p s = true -> Py.lstrip p s = s.
Proof.
  destruct s as [|c s]; simpl; [reflexivity|].
  now destruct (p c).
Qed.

Lemma rstrip_head_kept (s : string) :
  head_kept p s = true -> head_kept p (Py.rstrip p s) = true.
Proof.
  destruct s as [|c s]; simpl; [reflexivity|].
  intros Hc. destruct (Py.rstrip p s); simpl; [|exact Hc].
  destruct (p c) eqn:E; [discriminate | simpl; now rewrite E].
Qed.

Lemma rstrip_idempotent (s : string) :
  Py.rstrip p (Py.rstrip p s) = Py.rstrip p s.
Proof.
  induction s as [|c s IH]; simpl; [reflexivity|].
  destruct (Py.rstrip p s) as [|d r] eqn:Hr.
  - destruct (p c) eqn:Hc; simpl; [reflexivity | now rewrite Hc].
  - change (Py.rstrip p (String c (String d r)))
      with (match Py.rstrip p (String d r) with
            | EmptyString => if p c then EmptyString else String c EmptyString
            | String x y => String c (String x y)
            end).
    now rewrite IH.
Qed.

(** What is stripped on the left is a prefix, on the right a suffix. *)
Lemma lstrip_suffix (s : string) : exists a, s = a ++ Py.lstrip p s.
Proof.
  induction s as [|c s [a IH]]; simpl; [now exists ""|].
  destruct (p c).
  - exists (String c a). simpl. now rewrite <- IH.
  - now exists "".
Qed.

Lemma rstrip_prefix (s : string) : exists b, s = Py.rstrip p s ++ b.
Proof.
  induction s as [|c s [b IH]]; simpl; [now exists ""|].
  destruct (Py.rstrip p s) as [|d r].
  - destruct (p c).
    + now exists (String c s).
    + exists b. rewrite IH at 1. reflexivity.
  - exists b. rewrite IH at 1. reflexivity.
Qed.

End Strip.

Section Substrings.

Lemma startswith_append (sub a b : string) :
  Py.startswith sub a = true -> Py.startswith sub (a ++ b) = true.
Proof.
  revert a. induction sub as [|x sub IH]; intros a; simpl; [trivial|].
  destruct a as [|y a]; simpl; [discriminate|].
  intros H. apply andb_true_iff in H as [Hx Hs].
  now rewrite Hx, (IH _ Hs).
Qed.

Lemma contains_nil (sub : string) :
  Py.contains sub "" = Py.startswith sub "".
Proof. simpl. apply orb_false_r. Qed.

Lemma contains_append_l (sub a b : string) :
  Py.contains sub a = true -> Py.contains sub (a ++ b) = true.
Proof.
  induction a as [|x a IH].
  - rewrite contains_nil. intros H.
    destruct sub; [now destruct b | discriminate].
  - intros H. rewrite append_cons. cbn [Py.contains] in *.
    apply orb_true_iff in H as [H|H].
    + apply (startswith_append _ _ b) in H. rewrite append_cons in H.
      now rewrite H.
    + rewrite (IH H). apply orb_true_r.
Qed.

Lemma contains_append_r (sub a b : string) :
  Py.contains sub b = true -> Py.contains sub (a ++ b) = true.
Proof.
  intros H. induction a as [|x a IH]; simpl; [exact H|].
  rewrite IH. apply orb_true_r.
Qed.

Lemma has_char_append (c : ascii) (a b : string) :
  Py.has_char c (a ++ b) = Py.has_char c a || Py.has_char c b.
Proof.
  induction a as [|x a IH]; simpl; [reflexivity|].
  now rewrite IH, orb_assoc.
Qed.

End Substrings.

Section CleanFilename.

Lemma strip_chars (c : ascii) (s : string) :
  Py.has_char c s = false -> Py.has_char c (Py.strip underscore s) = false.
Proof.
  unfold Py.strip. intros H.
  destruct (lstrip_suffix underscore s) as [a Ha].
  destruct (rstrip_prefix underscore (Py.lstrip underscore s)) as [b Hb].
  rewrite Hb in Ha. rewrite Ha in H.
  rewrite !has_char_append in H.
  apply orb_false_iff in H as [_ H]. now apply orb_false_iff in H as [H _].
Qed.

Lemma strip_no_pair (s : string) :
  Py.contains "__" s = false ->
  Py.contains "__" (Py.strip underscore s) = false.
Proof.
  unfold Py.strip. intros H.
  destruct (lstrip_suffix underscore s) as [a Ha].
  destruct (rstrip_prefix underscore (Py.lstrip underscore s)) as [b Hb].
  destruct (Py.contains "__" (Py.rstrip underscore (Py.lstrip underscore s)))
    eqn:E; [|reflexivity].
  apply (contains_append_l _ _ b) in E. rewrite <- Hb in E.
  apply (contains_append_r _ a) in E. rewrite <- Ha in E. congruence.
Qed.

Lemma strip_fixed (s : string) :
  Py.strip underscore (Py.strip underscore s) = Py.strip underscore s.
Proof.
  unfold Py.strip.
  rewrite (lstrip_fixed underscore (Py.rstrip underscore _)).
  - apply rstrip_idempotent.
  - apply rstrip_head_kept, lstrip_head_kept.
Qed.

Lemma clean_filename_unfold (filename : string) :
  _clean_filename filename =
  if Py.truthy (cleaned_text filename) then cleaned_text filename
  else "renamed_file".
Proof.
  unfold _clean_filename, cleaned_text, replace_invalid, underscore.
  now destruct (Py.truthy _).
Qed.

Lemma cleaned_text_no_invalid (filename : string) :
  no_invalid (cleaned_text filename).
Proof.
  intros c Hc. unfold cleaned_text.
  apply strip_chars, collapse_loop_chars.
  apply replace_invalid_clears; [apply underscore_valid | exact Hc].
Qed.

Lemma cleaned_text_no_pair (filename : string) :
  Py.contains "__" (cleaned_text filename) = false.
Proof. apply strip_no_pair, collapse_done. Qed.

(** A string that is already clean is left as it is. *)
Lemma cleaned_text_fixed (s : string) :
  no_invalid s -> Py.contains "__" s = false ->
  Py.strip underscore s = s -> cleaned_text s = s.
Proof.
  intros Hv Hp Hs. unfold cleaned_text.
  rewrite (replace_invalid_fixed _ _ Hv), (collapse_fixed _ Hp). exact Hs.
Qed.

Lemma cleaned_text_idempotent (x : string) :
  cleaned_text (cleaned_text x) = cleaned_text x.
Proof.
  apply cleaned_text_fixed.
  - apply cleaned_text_no_invalid.
  - apply cleaned_text_no_pair.
  - apply strip_fixed.
Qed.

Lemma clean_filename_truthy (s : string) : Py.truthy (_clean_filename s) = true.
Proof.
  rewrite clean_filename_unfold.
  destruct (Py.truthy (cleaned_text s)) eqn:E; [exact E | reflexivity].
Qed.

End CleanFilename.

(** C8. The sanitiser is idempotent:
    [_clean_filename(_clean_filename(x)) == _clean_filename(x)] for every
    string [x].  Its result has none of the nine characters (slash, backslash,
    colon, star, question mark, double quote, the angle brackets, bar),
    no two underscores in a row and no underscore at either end, it is
    ["renamed_file"] when nothing else is left, and
    [_clean_filename("a//b::c") == "a_b_c"]. *)
Theorem clean_filename_idempotent (x : string) :
  _clean_filename (_clean_filename x) = _clean_filename x /\
  (forall c, In c invalid_chars -> Py.has_char c (_clean_filename x) = false) /\
  Py.contains "__" (_clean_filename x) = false /\
  Py.strip underscore (_clean_filename x) = _clean_filename x /\
  (if Py.truthy (cleaned_text x)
   then True else _clean_filename x = "renamed_file") /\
  _clean_filename "a//b::c" = "a_b_c".
Proof.
  rewrite (clean_filename_unfold x).
  destruct (Py.truthy (cleaned_text x)) eqn:E.
  - rewrite clean_filename_unfold, cleaned_text_idempotent, E.
    repeat split.
    + apply cleaned_text_no_invalid.
    + apply cleaned_text_no_pair.
    + apply strip_fixed.
  - repeat split; try reflexivity.
    intros c Hc. unfold invalid_chars in Hc. simpl in Hc.
    repeat (destruct Hc as [<-|Hc]; [reflexivity|]). contradiction.
Qed.

(** ** Validation *)

Lemma strip_all (p : ascii -> bool) (s : string) :
  all_chars p s = true -> Py.strip p s = "".
Proof.
  unfold Py.strip. induction s as [|c s IH]; simpl; [reflexivity|].
  intros H. apply andb_true_iff in H as [Hc Hs]. rewrite Hc. now apply IH.
Qed.

(** C5. [validate_pattern] accepts ["{counter}_{original}.{ext}"]; it rejects
    ["{nope}"] with the unknown-variable message naming it, ["{foo"] with the
    unmatched-braces message (one opening brace, no closing one), the empty
    string and every string made of white space only with the empty-pattern
    message.  It is a function of the pattern alone: it reads no store and
    returns none. *)
Theorem validate_pattern_cases (ws : string)
    (Hws : all_chars Py.isspace ws = true) :
  validate_pattern "{counter}_{original}.{ext}" = (true, "Valid pattern") /\
  validate_pattern "{nope}" = (false, "Unknown variable: {nope}") /\
  validate_pattern "{foo" = (false, "Unmatched braces in pattern") /\
  (Py.count "{" "{foo" = 1%nat /\ Py.count "}" "{foo" = 0%nat) /\
  validate_pattern "" = (false, "Pattern cannot be empty") /\
  validate_pattern ws = (false, "Pattern cannot be empty").
Proof.
  repeat split; try (vm_compute; reflexivity).
  unfold validate_pattern. rewrite (strip_all _ _ Hws).
  now rewrite orb_true_r.
Qed.

Lemma validate_pattern_cases_witness :
  all_chars Py.isspace "   " = true /\
  validate_pattern "   " = (false, "Pattern cannot be empty").
Proof.
  split; [reflexivity|].
  apply (validate_pattern_cases "   "). reflexivity.
Defined.

(** C9. The sanitiser never returns the empty string (it returns
    ["renamed_file"] instead), so the last test of [validate_pattern] cannot
    fail: patterns made of filler only, such as ["___"] and ["//"], whose
    cleaned text is empty, are accepted. *)
Theorem validate_pattern_accepts_filler :
  (forall pattern, Py.truthy (_clean_filename pattern) = true) /\
  (cleaned_text "___" = "" /\ validate_pattern "___" = (true, "Valid pattern")) /\
  (cleaned_text "//" = "" /\ validate_pattern "//" = (true, "Valid pattern")).
Proof.
  split; [exact clean_filename_truthy|].
  repeat split; vm_compute; reflexivity.
Qed.

(** ** The counter store *)

Section Counters.

Variable hash : string -> Z.

(** Decimal printing is injective. *)
Lemma str_inj (a b : Z) : Py.str a = Py.str b -> a = b.
Proof.
  unfold Py.str. intros H. apply DecimalZ.to_int_inj.
  assert (Hback : forall z,
            NilZero.int_of_string (NilZero.string_of_int (Z.to_int z)) =
            Some (Z.to_int z)).
  { intros z. apply NilZero.isi; destruct z; simpl; try discriminate;
      intros [= E]; exact (DecimalPos.Unsigned.to_uint_nonnil _ E). }
  pose proof (Hback a) as Ha. rewrite H, Hback in Ha. congruence.
Qed.

Lemma append_inj_l (a b c : string) : a ++ b = a ++ c -> b = c.
Proof. induction a as [|x a IH]; simpl; [trivial | intros [= H]; auto]. Qed.

Lemma cache_key_hash (user_id : Z) (p q : string) :
  cache_key hash user_id p = cache_key hash user_id q -> hash p = hash q.
Proof.
  unfold cache_key. intros H.
  apply append_inj_l, append_inj_l in H. now apply str_inj.
Qed.

Lemma counter_of_eq (user_id : Z) (pattern : string) (st : state) :
  counter_of hash user_id pattern st =
  match user_counters st !! cache_key hash user_id pattern with
  | Some v => v
  | None =>
      Database.get_user_preference (db st) user_id (pref_key hash pattern) 1
  end.
Proof.
  unfold counter_of, _get_counter.
  now destruct (user_counters st !! cache_key hash user_id pattern).
Qed.

(** Reading a counter changes no counter of that user and leaves the
    database alone: it only fills the cache with what would be read. *)
Lemma get_counter_frame (user_id : Z) (q : string) (st : state) :
  db (snd (_get_counter hash user_id q st)) = db st /\
  forall p, counter_of hash user_id p (snd (_get_counter hash user_id q st)) =
            counter_of hash user_id p st.
Proof.
  unfold _get_counter.
  destruct (user_counters st !! cache_key hash user_id q) eqn:Hq;
    [split; reflexivity|].
  cbn [snd db]. split; [reflexivity|]. intros p.
  rewrite !counter_of_eq. cbn [user_counters db].
  destruct (decide (cache_key hash user_id q = cache_key hash user_id p))
    as [Heq|Hne].
  - rewrite <- Heq, lookup_insert_eq, Hq.
    unfold pref_key. now rewrite (cache_key_hash _ _ _ Heq).
  - now rewrite lookup_insert_ne.
Qed.

Lemma process_counters_frame (e : env) (user_id : Z) (specs : list string)
    (pattern : string) (st : state) :
  db (snd (process_counters_loop hash e user_id specs pattern st)) = db st /\
  forall p,
    counter_of hash user_id p
      (snd (process_counters_loop hash e user_id specs pattern st)) =
    counter_of hash user_id p st.
Proof.
  revert pattern st. induction specs as [|spec specs IH]; intros pattern st.
  - split; reflexivity.
  - cbn [process_counters_loop].
    pose proof (get_counter_frame user_id pattern st) as [Hdb Hc].
    destruct (_get_counter hash user_id pattern st) as [v st1].
    cbn [snd] in Hdb, Hc.
    assert (Hstop : forall t : string,
              db (snd (t, st1)) = db st /\
              forall p, counter_of hash user_id p (snd (t, st1)) =
                        counter_of hash user_id p st) by (intros t; now split).
    assert (Hgo : forall t : string,
              db (snd (process_counters_loop hash e user_id specs t st1)) =
                db st /\
              forall p,
                counter_of hash user_id p
                  (snd (process_counters_loop hash e user_id specs t st1)) =
                counter_of hash user_id p st).
    { intros t. destruct (IH t st1) as [Hdb' Hc']. split; [congruence|].
      intros p. now rewrite Hc'. }
    destruct (index0 spec) as [c|x]; [|apply Hstop].
    destruct (Num.format_int (format_other e) v c) as [s|[]];
      auto.
Qed.

End Counters.

(** ** Building the context *)

Section RenderCounter.

Variable hash : string -> Z.

Lemma build_context_fits (e : env) (file : file_info) (user_id : Z)
    (st : state) :
  size_fits file = true ->
  exists context, build_context e file user_id st = Ok context.
Proof.
  unfold size_fits, build_context. intros H.
  destruct (_format_size _); [|discriminate].
  destruct (format_size_mb _); [|discriminate].
  eexists. reflexivity.
Qed.

End RenderCounter.

(** ** The counter tokens of two patterns *)

Section Sequences.

Variable hash : string -> Z.

(** With nothing cached and nothing stored the counter reads 1. *)
Lemma counter_of_fresh (user_id : Z) (pattern : string) (st : state) :
  user_counters st !! cache_key hash user_id pattern = None ->
  match db st !! user_id with
  | Some u => Database.preferences u !! pref_key hash pattern = None
  | None => True
  end ->
  counter_of hash user_id pattern st = 1.
Proof.
  intros Hcache Hdb. rewrite counter_of_eq, Hcache.
  unfold Database.get_user_preference, Database.get_user.
  destruct (db st !! user_id); [now rewrite Hdb | reflexivity].
Qed.

(** What [_process_counters] returns for the two patterns looked at below:
    the pattern itself. *)
Lemma process_counters_plain_token (e : env) (user_id : Z) (st : state) :
  fst (_process_counters hash e "{counter}_{original}" user_id st) =
  "{counter}_{original}".
Proof.
  unfold _process_counters.
  replace (Re.findall_counter "{counter}_{original}") with [""]
    by (vm_compute; reflexivity).
  cbn [process_counters_loop].
  now destruct (_get_counter hash user_id "{counter}_{original}" st).
Qed.

Lemma process_counters_padded_token (e : env) (user_id : Z) (st : state) :
  fst (_process_counters hash e "{counter:03d}_{original}.{ext}" user_id st) =
  "{counter:03d}_{original}.{ext}".
Proof.
  unfold _process_counters.
  replace (Re.findall_counter "{counter:03d}_{original}.{ext}") with ["03d"]
    by (vm_compute; reflexivity).
  cbn [process_counters_loop].
  destruct (_get_counter hash user_id "{counter:03d}_{original}.{ext}" st)
    as [v st1].
  cbn [index0].
  replace (Num.format_int (format_other e) v "0") with (Ok (Py.str v))
    by reflexivity.
  replace (Py.replace ("{counter:" ++ char_str "0" ++ "}") (Py.str v)
             "{counter:03d}_{original}.{ext}")
    with "{counter:03d}_{original}.{ext}" by (vm_compute; reflexivity).
  reflexivity.
Qed.

(** Rendering either of them on ["movie.mp4"]: the text after the counter
    step does not depend on the state or the environment. *)
Lemma finish_movie (e : env) (user_id : Z) (st : state)
    (context : list (string * string)) :
  build_context e movie_mp4 user_id st = Ok context ->
  finish e movie_mp4 [] context "{counter}_{original}" =
    "{counter}_movie.mp4" /\
  finish e movie_mp4 [] context "{counter:03d}_{original}.{ext}" =
    "{counter_03d}_movie..mp4".
Proof.
  unfold build_context.
  replace (_format_size (get_default (fi_size movie_mp4) 0))
    with (Ok "700MB") by (vm_compute; reflexivity).
  replace (format_size_mb (get_default (fi_size movie_mp4) 0))
    with (Ok "700.0") by (vm_compute; reflexivity).
  cbn [bind]. intros [= <-].
  split; vm_compute; reflexivity.
Qed.

End Sequences.

(** ** The size values *)

Section Sizes.

Lemma round53_exact (n : Z) : 0 <= n < 2 ^ 53 -> Num.round53 n = n.
Proof.
  intros [H0 H53]. unfold Num.round53.
  rewrite (Z.abs_eq n H0).
  assert (Hbits : Z.log2 n + 1 <= 53).
  { destruct (Z.eq_dec n 0) as [->|Hn]; [cbn; lia|].
    assert (Z.log2 n < 53) by (apply Z.log2_lt_pow2; lia). lia. }
  apply Z.leb_le in Hbits. now rewrite Hbits.
Qed.

(** From 2^53 on the conversion rounds, by at most half a unit in the last
    of the 53 places. *)
Lemma round53_large (n : Z) :
  2 ^ 53 <= n ->
  2 ^ 53 <= Num.round53 n /\ Z.abs (Num.round53 n - n) * 2 ^ 53 <= n.
Proof.
  intros Hn. assert (Hpos : 0 < n) by lia.
  unfold Num.round53. rewrite (Z.abs_eq n) by lia.
  assert (Hb : 53 <= Z.log2 n) by (apply Z.log2_le_pow2; lia).
  replace (Z.log2 n + 1 <=? 53) with false by (symmetry; apply Z.leb_gt; lia).
  cbv zeta.
  set (sh := Z.log2 n + 1 - 53).
  assert (Hsh : 1 <= sh) by (unfold sh; lia).
  rewrite Z.sgn_pos, Z.mul_1_l by lia.
  rewrite !Z.shiftl_mul_pow2, Z.shiftr_div_pow2 by lia.
  rewrite Z.mul_1_l.
  set (P := 2 ^ (sh - 1)).
  assert (HP : 1 <= P) by (unfold P; apply (Z.pow_le_mono_r 2 0); lia).
  assert (H2P : 2 ^ sh = 2 * P).
  { unfold P. rewrite <- (Z.pow_succ_r 2 (sh - 1)) by lia. f_equal. lia. }
  rewrite H2P.
  assert (Hlow : P * 2 ^ 53 <= n).
  { destruct (Z.log2_spec n Hpos) as [Hl _].
    replace (Z.log2 n) with ((sh - 1) + 53) in Hl by (unfold sh; lia).
    rewrite Z.pow_add_r in Hl by lia. exact Hl. }
  pose proof (Z.div_mod n (2 * P) ltac:(lia)) as Hdm.
  pose proof (Z.mod_pos_bound n (2 * P) ltac:(lia)) as Hr.
  set (q := n / (2 * P)) in *. set (r := n mod (2 * P)) in *.
  assert (Hq : 2 ^ 52 <= q).
  { unfold q. apply Z.div_le_lower_bound; [lia|].
    change (2 ^ 53) with (2 * 2 ^ 52) in Hlow. lia. }
  replace (n - q * (2 * P)) with r by lia.
  change (2 ^ 53) with 9007199254740992 in *.
  change (2 ^ 52) with 4503599627370496 in *.
  destruct ((P <? r) || ((r =? P) && Z.odd q)) eqn:Hup.
  - assert (P <= r).
    { apply orb_true_iff in Hup as [H|H]; [apply Z.ltb_lt in H; lia|].
      apply andb_true_iff in H as [H _]. apply Z.eqb_eq in H. lia. }
    split; nia.
  - assert (r <= P).
    { apply orb_false_iff in Hup as [H _]. apply Z.ltb_ge in H. lia. }
    split; nia.
Qed.

(** The float of a non-negative count: the count itself below 2^53, within
    a relative 2^-53 of it in general, and on the same side of every power
    of two up to 2^53. *)
Lemma round53_close (n : Z) :
  0 <= n ->
  0 <= Num.round53 n /\
  Z.abs (Num.round53 n - n) * 2 ^ 53 <= n /\
  (if n <? 2 ^ 53 then Num.round53 n = n else 2 ^ 53 <= Num.round53 n).
Proof.
  intros H0. destruct (n <? 2 ^ 53) eqn:Hlt.
  - apply Z.ltb_lt in Hlt. rewrite (round53_exact n) by lia.
    replace (n - n) with 0 by lia. cbn [Z.abs]. lia.
  - apply Z.ltb_ge in Hlt. destruct (round53_large n Hlt) as [H1 H2].
    change (2 ^ 53) with 9007199254740992 in *. lia.
Qed.

Lemma round_half_even_nearest (a d : Z) :
  0 <= a -> 0 < d ->
  Z.abs (2 * (Num.round_half_even a d * d - a)) <= d /\
  (2 * (a mod d) = d -> Z.even (Num.round_half_even a d) = true).
Proof.
  intros Ha Hd. unfold Num.round_half_even.
  pose proof (Z.div_mod a d ltac:(lia)) as Hdm.
  pose proof (Z.mod_pos_bound a d Hd) as Hr.
  destruct (d <? 2 * (a mod d)) eqn:Hup; cbn [orb].
  - apply Z.ltb_lt in Hup. split; [nia | lia].
  - apply Z.ltb_ge in Hup.
    destruct (2 * (a mod d) =? d) eqn:Htie; cbn [andb].
    + apply Z.eqb_eq in Htie.
      destruct (Z.odd (a / d)) eqn:Hodd.
      * split; [nia|]. intros _.
        rewrite Z.even_add, <- Z.negb_odd, Hodd. reflexivity.
      * split; [nia|]. intros _. now rewrite <- Z.negb_odd, Hodd.
    + apply Z.eqb_neq in Htie. split; [nia | lia].
Qed.

Lemma round_half_even_unit (a : Z) : Num.round_half_even a 1 = a.
Proof.
  unfold Num.round_half_even. rewrite Z.mod_1_r, Z.div_1_r. reflexivity.
Qed.

Lemma str_not_empty (z : Z) : Py.truthy (Py.str z) = true.
Proof.
  unfold Py.str. destruct (Z.to_int z) as [d|d]; [|reflexivity].
  destruct d; reflexivity.
Qed.

Lemma rjust_one (z : Z) : Py.rjust 1 "0" (Py.str z) = Py.str z.
Proof.
  unfold Py.rjust. pose proof (str_not_empty z) as H.
  destruct (Py.str z); [discriminate | reflexivity].
Qed.

Lemma fixed_zero_decimals (n d : Z) :
  0 <= n -> Num.fixed 0 n d = Py.str (Num.round_half_even n d).
Proof.
  intros Hn. unfold Num.fixed.
  replace (n <? 0) with false by (symmetry; apply Z.ltb_ge; lia).
  change (10 ^ Z.of_nat 0) with 1.
  rewrite (Z.abs_eq n Hn), Z.mul_1_r, Z.div_1_r.
  cbn [String.append]. apply append_nil_r.
Qed.

Lemma fixed_one_decimal (n d : Z) :
  0 <= n -> Num.fixed 1 n d = one_decimal n d.
Proof.
  intros Hn. unfold Num.fixed, one_decimal.
  replace (n <? 0) with false by (symmetry; apply Z.ltb_ge; lia).
  change (10 ^ Z.of_nat 1) with 10.
  rewrite (Z.abs_eq n Hn), rjust_one, (Z.mul_comm n 10).
  reflexivity.
Qed.

Lemma to_float_count (n : Z) :
  0 <= n < 2 ^ 64 -> Num.to_float (Num.Int n) = Ok (Num.round53 n, 1).
Proof.
  intros H. unfold Num.to_float.
  destruct (round53_close n (proj1 H)) as (Hm0 & Herr & _).
  replace (Z.abs (Num.round53 n) <? 2 ^ 1024) with true; [reflexivity|].
  symmetry. apply Z.ltb_lt. rewrite (Z.abs_eq _ Hm0).
  apply Z.lt_trans with (2 ^ 65); [|apply Z.pow_lt_mono_r; lia].
  change (2 ^ 53) with 9007199254740992 in *.
  change (2 ^ 64) with 18446744073709551616 in *.
  change (2 ^ 65) with 36893488147419103232. lia.
Qed.

Lemma format_size_count (n : Z) :
  0 <= n < 2 ^ 64 -> _format_size n = Ok (size_text (Num.round53 n)).
Proof.
  intros H. unfold _format_size, size_text.
  destruct (round53_close n (proj1 H)) as (Hm0 & _ & Hm).
  assert (Hzero : (n =? 0) = (Num.round53 n =? 0)).
  { destruct (n <? 2 ^ 53); [now rewrite Hm|].
    change (2 ^ 53) with 9007199254740992 in *.
    destruct (Z.eqb_spec n 0) as [->|Hn]; [reflexivity|].
    symmetry. apply Z.eqb_neq. lia. }
  assert (Hsmall : (n <? 1024) = (Num.round53 n <? 1024)).
  { destruct (n <? 2 ^ 53) eqn:Hlt; [now rewrite Hm|].
    apply Z.ltb_ge in Hlt. change (2 ^ 53) with 9007199254740992 in *.
    transitivity false; [apply Z.ltb_ge | symmetry; apply Z.ltb_ge]; lia. }
  rewrite <- Hzero.
  destruct (n =? 0) eqn:Hz; [reflexivity|].
  cbn [format_size_loop Num.lt_1024].
  unfold Num.format_f, Num.div_1024.
  rewrite (to_float_count n H). cbn [bind fst snd].
  rewrite Hsmall. generalize dependent (Num.round53 n). intros m Hm0 _ _ _.
  destruct (m <? 1024) eqn:H1.
  { rewrite fixed_zero_decimals, round_half_even_unit by lia. reflexivity. }
  cbn [format_size_loop Num.lt_1024 Num.to_float bind fst snd].
  change (1024 * 1) with 1024. change (1024 * 1024) with (1024 ^ 2).
  destruct (m <? 1024 ^ 2) eqn:H2.
  { rewrite fixed_zero_decimals by lia. reflexivity. }
  cbn [format_size_loop Num.lt_1024 Num.to_float bind fst snd].
  change (1024 * 1024 ^ 2) with (1024 ^ 3).
  destruct (m <? 1024 ^ 3) eqn:H3.
  { rewrite fixed_zero_decimals by lia. reflexivity. }
  cbn [format_size_loop Num.lt_1024 Num.to_float bind fst snd].
  change (1024 * 1024 ^ 3) with (1024 ^ 4).
  destruct (m <? 1024 ^ 4) eqn:H4.
  { rewrite fixed_zero_decimals by lia. reflexivity. }
  cbn [format_size_loop Num.lt_1024 Num.to_float bind fst snd].
  rewrite fixed_one_decimal by lia. reflexivity.
Qed.

Lemma format_size_mb_count (n : Z) :
  0 <= n < 2 ^ 64 -> format_size_mb n = Ok (size_mb_text (Num.round53 n)).
Proof.
  intros H. unfold format_size_mb, Num.truediv_mb, size_mb_text.
  pose proof (to_float_count n H) as Hf. unfold Num.to_float in Hf.
  destruct (round53_close n (proj1 H)) as (Hm0 & _ & _).
  replace (Z.abs (Num.round53 n) <? 2 ^ 1044) with true.
  - cbn [bind Num.format_f Num.to_float fst snd].
    rewrite fixed_one_decimal by lia. reflexivity.
  - symmetry. apply Z.ltb_lt.
    destruct (Z.abs (Num.round53 n) <? 2 ^ 1024) eqn:E; [|discriminate].
    apply Z.ltb_lt in E.
    apply Z.lt_trans with (2 ^ 1024); [exact E|].
    apply Z.pow_lt_mono_r; lia.
Qed.

End Sizes.

(** C7 (as amended).  For a byte count [n] from 0 up to 2^64, let [m] be
    the count as a float: [n] itself below 2^53, and otherwise [n] rounded
    to 53 significant bits.  The [{size}] value is ["0B"] for 0, the count
    followed by [B] below 1024, the count divided by 1024, 1024² or 1024³
    and rounded to the nearest integer, with no decimal place, followed by
    [KB], [MB] or [GB] while that quotient is below 1024, and from 1024⁴
    bytes on the count divided by 1024⁴ with one decimal place followed by
    [TB]; the [{size_mb}] value is the count divided by 1024² with one
    decimal place.  Rounding is to the nearest, ties to even. *)
Theorem format_size_values (n : Z) (Hrange : 0 <= n < 2 ^ 64) :
  let m := Num.round53 n in
  _format_size n = Ok (size_text m) /\
  format_size_mb n = Ok (size_mb_text m) /\
  (if n <? 2 ^ 53 then m = n else 2 ^ 53 <= m) /\
  Z.abs (m - n) * 2 ^ 53 <= n /\
  (forall (a : N) (d : positive),
     Z.abs (2 * (Num.round_half_even (Z.of_N a) (Z.pos d) * Z.pos d
                 - Z.of_N a)) <= Z.pos d).
Proof.
  cbn zeta.
  destruct (round53_close n (proj1 Hrange)) as (_ & Herr & Hm).
  split; [now apply format_size_count|].
  split; [now apply format_size_mb_count|].
  split; [exact Hm|]. split; [exact Herr|].
  intros a d. apply round_half_even_nearest; lia.
Qed.

Lemma format_size_values_witness :
  0 <= 1536 < 2 ^ 64 /\
  _format_size 1536 = Ok "2KB" /\ format_size_mb 1536 = Ok "0.0".
Proof.
  assert (H : 0 <= 1536 < 2 ^ 64) by (split; [lia | reflexivity]).
  split; [exact H|].
  destruct (format_size_values 1536 H) as (Hs & Hm & _).
  split; [exact Hs | exact Hm].
Defined.

(** The claim of C7 as it is worded fails: 1536 bytes are ["2KB"], not
    ["1.5KB"], and 2^40 bytes are ["1.0TB"], not ["1024.0GB"]. *)
Lemma format_size_counterexample :
  (_format_size 1536 = Ok "2KB" /\ size_as_specified 1536 = "1.5KB") /\
  (_format_size (2 ^ 40) = Ok "1.0TB" /\
   size_as_specified (2 ^ 40) = "1024.0GB") /\
  _format_size 1536 <> Ok (size_as_specified 1536) /\
  _format_size (2 ^ 40) <> Ok (size_as_specified (2 ^ 40)).
Proof.
  repeat split; try (vm_compute; reflexivity); vm_compute; discriminate.
Qed.

(** * Further properties of the pattern engine *)

(** ** Text that is not there *)

Section Absent.

Lemma has_char_contains (c : ascii) (t s : string) :
  Py.has_char c s = false -> Py.contains (String c t) s = false.
Proof.
  induction s as [|a s IH]; [reflexivity|].
  cbn [Py.has_char Py.contains Py.startswith]. intros H.
  apply orb_false_iff in H as [Ha Hs].
  rewrite Ascii.eqb_sym, Ha, (IH Hs). reflexivity.
Qed.

(** Replacing a text that does not occur changes nothing. *)
Lemma replace_absent (old new s : string) :
  Py.truthy old = true -> Py.contains old s = false ->
  Py.replace old new s = s.
Proof.
  unfold Py.replace. destruct old as [|x old]; [discriminate|]. intros _.
  induction s as [|a s IH]; [reflexivity|].
  cbn [Py.contains Py.replace_from]. intros H.
  apply orb_false_iff in H as [Hs Hrest].
  rewrite Hs, (IH Hrest). reflexivity.
Qed.

Lemma match_variable_brace (s : string) :
  Py.has_char "{" s = false -> Re.match_variable s = None.
Proof.
  destruct s as [|a r]; [reflexivity|].
  cbn [Py.has_char]. intros H. apply orb_false_iff in H as [Ha _].
  destruct a as [[] [] [] [] [] [] [] []]; try reflexivity; discriminate.
Qed.

Lemma match_optional_brace (name : string) (cls : ascii -> bool) (s : string) :
  Py.has_char "{" s = false -> Re.match_optional name cls s = None.
Proof.
  destruct s as [|a r]; [reflexivity|].
  cbn [Py.has_char]. intros H. apply orb_false_iff in H as [Ha _].
  unfold Re.match_optional. cbn [Py.startswith].
  rewrite Ascii.eqb_sym, Ha. reflexivity.
Qed.

Lemma findall_no_brace (m : string -> option (string * nat)) (s : string) :
  (forall t, Py.has_char "{" t = false -> m t = None) ->
  Py.has_char "{" s = false -> forall skip, Re.findall_from m s skip = [].
Proof.
  intros Hm. induction s as [|a s IH]; intros H skip; [reflexivity|].
  assert (Hs : Py.has_char "{" s = false)
    by (cbn [Py.has_char] in H; now apply orb_false_iff in H as [_ H]).
  cbn [Re.findall_from]. destruct skip as [|k]; [|now apply IH].
  rewrite (Hm _ H). now apply IH.
Qed.

End Absent.

(** ** The extension, put together and taken apart *)

Section ExtensionRoundTrip.

Lemma dot_split_unique (a a' b b' : string) :
  Py.has_char "." b = false -> Py.has_char "." b' = false ->
  a ++ "." ++ b = a' ++ "." ++ b' -> a = a' /\ b = b'.
Proof.
  intros Hb Hb'. revert a'.
  induction a as [|x a IH]; intros [|y a'] H; cbn in H.
  - now injection H.
  - injection H as <- H. subst b.
    rewrite has_char_append in Hb. cbn in Hb.
    rewrite orb_true_r in Hb. discriminate.
  - injection H as -> H. subst b'.
    rewrite has_char_append in Hb'. cbn in Hb'.
    rewrite orb_true_r in Hb'. discriminate.
  - injection H as <- H. destruct (IH a' H) as [-> ->]. now split.
Qed.

Lemma extension_parts (f : string) :
  Py.has_char "." f = true ->
  f = _remove_extension f ++ _get_extension f /\
  exists b, _get_extension f = "." ++ b /\ Py.has_char "." b = false.
Proof.
  intros H. unfold _remove_extension, _get_extension. rewrite H. split.
  - change ("." ++ Py.last (Py.split "." f))
      with (String "." (Py.last (Py.split "." f))).
    rewrite (join_init_last "." _ (split_two_fields "." f H)).
    symmetry. apply join_split.
  - eexists. split; [reflexivity | apply last_split_no_sep].
Qed.

(** X1. Splitting undoes joining: for a stem and a suffix without a dot,
    the name [stem + "." + suffix] has the stem [stem] and the extension
    ["." + suffix], whatever dots the stem holds. *)
Theorem extension_of_joined (stem suffix : string)
    (Hdot : Py.has_char "." suffix = false) :
  _remove_extension (stem ++ "." ++ suffix) = stem /\
  _get_extension (stem ++ "." ++ suffix) = "." ++ suffix.
Proof.
  assert (H : Py.has_char "." (stem ++ "." ++ suffix) = true).
  { rewrite has_char_append. cbn. now rewrite orb_true_r. }
  destruct (extension_parts _ H) as (Hf & b & Hb & Hnodot).
  rewrite Hb in Hf.
  destruct (dot_split_unique _ _ _ _ Hdot Hnodot Hf) as [Hs <-].
  split; [now symmetry | exact Hb].
Qed.

Lemma extension_of_joined_witness :
  Py.has_char "." "gz" = false /\
  _remove_extension ("backup.tar" ++ "." ++ "gz") = "backup.tar" /\
  _get_extension ("backup.tar" ++ "." ++ "gz") = ".gz".
Proof.
  split; [reflexivity|].
  exact (extension_of_joined "backup.tar" "gz" eq_refl).
Defined.

End ExtensionRoundTrip.

(** ** More on the sanitiser *)

Section SanitizerMore.

Lemma strip_truthy_input (p : ascii -> bool) (s : string) :
  Py.truthy (Py.strip p s) = true -> Py.truthy s = true.
Proof. destruct s; [discriminate | reflexivity]. Qed.

(** X2. The names the sanitiser leaves alone are exactly the clean ones:
    [_clean_filename(x) == x] if and only if [x] is not empty, has none of
    the nine characters, no two underscores in a row and no underscore at
    either end. *)
Theorem clean_filename_fixed_points (x : string) :
  _clean_filename x = x <->
  (Py.truthy x = true /\ no_invalid x /\ Py.contains "__" x = false /\
   Py.strip underscore x = x).
Proof.
  split.
  - intros Hfix. rewrite clean_filename_unfold in Hfix.
    destruct (Py.truthy (cleaned_text x)) eqn:E.
    + rewrite <- Hfix. repeat split.
      * exact E.
      * apply cleaned_text_no_invalid.
      * apply cleaned_text_no_pair.
      * apply strip_fixed.
    + subst x. repeat split; try reflexivity.
      intros c Hc. unfold invalid_chars in Hc. simpl in Hc.
      repeat (destruct Hc as [<-|Hc]; [reflexivity|]). contradiction.
  - intros (Ht & Hv & Hp & Hs).
    rewrite clean_filename_unfold, (cleaned_text_fixed x Hv Hp Hs), Ht.
    reflexivity.
Qed.

Lemma replace_char_length (c : ascii) (s : string) :
  String.length (Py.replace (char_str c) "_" s) = String.length s.
Proof.
  unfold Py.replace, char_str.
  induction s as [|a s IH]; [reflexivity|].
  cbn [Py.replace_from Py.startswith].
  destruct (Ascii.eqb c a); cbn; now rewrite IH.
Qed.

Lemma replace_invalid_length (cs : list ascii) (s : string) :
  String.length (replace_invalid cs s) = String.length s.
Proof.
  revert s. induction cs as [|c cs IH]; intros s; [reflexivity|].
  unfold replace_invalid in *. cbn [fold_left].
  now rewrite IH, replace_char_length.
Qed.

Lemma collapse_loop_length (fuel : nat) (s : string) :
  (String.length (collapse_loop fuel s) <= String.length s)%nat.
Proof.
  revert s. induction fuel as [|k IH]; intros s; cbn [collapse_loop]; [lia|].
  destruct (Py.contains "__" s) eqn:E; [|lia].
  pose proof (replace_pair_shrinks s E). specialize (IH (Py.replace "__" "_" s)).
  lia.
Qed.

Lemma strip_length (p : ascii -> bool) (s : string) :
  (String.length (Py.strip p s) <= String.length s)%nat.
Proof.
  unfold Py.strip.
  destruct (lstrip_suffix p s) as [a Ha].
  destruct (rstrip_prefix p (Py.lstrip p s)) as [b Hb].
  rewrite Ha at 2. rewrite Hb at 2. rewrite !length_append. lia.
Qed.

(** X3. Sanitising never makes a name longer, except that an empty result
    becomes the twelve characters of ["renamed_file"]. *)
Theorem clean_filename_length (x : string) :
  (String.length (_clean_filename x) <= Nat.max (String.length x) 12)%nat /\
  (if Py.truthy (cleaned_text x)
   then (String.length (_clean_filename x) <= String.length x)%nat
   else _clean_filename x = "renamed_file").
Proof.
  assert (H : (String.length (cleaned_text x) <= String.length x)%nat).
  { unfold cleaned_text.
    pose proof (strip_length underscore
                  (collapse (replace_invalid invalid_chars x))).
    pose proof (collapse_loop_length
                  (String.length (replace_invalid invalid_chars x))
                  (replace_invalid invalid_chars x)).
    pose proof (replace_invalid_length invalid_chars x).
    unfold collapse in *. lia. }
  rewrite clean_filename_unfold.
  destruct (Py.truthy (cleaned_text x)); [lia|].
  split; [cbn; lia | reflexivity].
Qed.

End SanitizerMore.

(** ** Patterns without placeholders, and tokens that are never replaced *)

Section Tokens.

Variable hash : string -> Z.

Lemma substitute_absent (pattern : string) (context : list (string * string)) :
  Py.has_char "{" pattern = false ->
  _substitute_variables pattern context = pattern.
Proof.
  intros H. unfold _substitute_variables.
  induction context as [|[k v] context IH]; [reflexivity|].
  cbn [fold_left fst snd].
  rewrite replace_absent; [exact IH | reflexivity |].
  now apply has_char_contains.
Qed.

(** X4. A pattern without an opening brace goes through the three
    substitution steps unchanged, and no counter is read for it: the name
    computed from it is its sanitised text, with the extension of the file
    appended when it does not end with it. *)
Theorem literal_pattern_render (e : env) (pattern : string) (user_id : Z)
    (st : state) (pos : nat) (file : file_info)
    (kwargs context : list (string * string))
    (Hliteral : Py.has_char "{" pattern = false) :
  _process_counters hash e pattern user_id st = (pattern, st) /\
  _process_random_variables e pos pattern = pattern /\
  _substitute_variables pattern context = pattern /\
  finish e file kwargs context pattern =
    (let file_ext := _get_extension (get_default (fi_name file) "file") in
     if negb (Py.endswith (_clean_filename pattern) file_ext) &&
        Py.truthy file_ext
     then _clean_filename pattern ++ file_ext
     else _clean_filename pattern).
Proof.
  assert (Hc : Re.findall_counter pattern = []).
  { apply findall_no_brace; [|exact Hliteral].
    intros t Ht. now apply match_optional_brace. }
  assert (Hr : Re.findall_random pattern = []).
  { apply findall_no_brace; [|exact Hliteral].
    intros t Ht. now apply match_optional_brace. }
  assert (Hrand : forall k, _process_random_variables e k pattern = pattern).
  { intros k. unfold _process_random_variables. now rewrite Hr. }
  repeat split.
  - unfold _process_counters. now rewrite Hc.
  - apply Hrand.
  - now apply substitute_absent.
  - unfold finish. rewrite Hrand, substitute_absent by exact Hliteral.
    reflexivity.
Qed.

Lemma count_absent (c : ascii) (s : string) :
  Py.has_char c s = false -> Py.count (char_str c) s = 0%nat.
Proof.
  unfold Py.count, char_str.
  induction s as [|a s IH]; [reflexivity|].
  cbn [Py.has_char Py.count_from Py.startswith]. intros H.
  apply orb_false_iff in H as [Ha Hs].
  rewrite Ascii.eqb_sym, Ha. now apply IH.
Qed.

(** X5. [validate_pattern] accepts every pattern without braces that is
    not blank, whatever else it is made of. *)
Theorem validate_pattern_literal (pattern : string)
    (Hopen : Py.has_char "{" pattern = false)
    (Hclose : Py.has_char "}" pattern = false)
    (Hblank : Py.truthy (Py.strip Py.isspace pattern) = true) :
  validate_pattern pattern = (true, "Valid pattern").
Proof.
  unfold validate_pattern.
  rewrite Hblank, (strip_truthy_input _ _ Hblank). cbn [negb orb].
  change "{" with (char_str "{"). change "}" with (char_str "}").
  rewrite (count_absent _ _ Hopen), (count_absent _ _ Hclose).
  cbn [Nat.eqb negb].
  replace (Re.findall_variable pattern) with (@nil string).
  - cbn [check_variables]. now rewrite clean_filename_truthy.
  - symmetry. apply findall_no_brace; [|exact Hopen].
    intros t Ht. now apply match_variable_brace.
Qed.

Lemma validate_pattern_literal_witness :
  (Py.has_char "{" "scan of ///" = false /\
   Py.has_char "}" "scan of ///" = false /\
   Py.truthy (Py.strip Py.isspace "scan of ///") = true) /\
  validate_pattern "scan of ///" = (true, "Valid pattern").
Proof.
  split; [repeat split|].
  exact (validate_pattern_literal "scan of ///" eq_refl eq_refl eq_refl).
Defined.

Lemma process_counters_loop_absent (e : env) (user_id : Z)
    (pattern : string) :
  (forall c, Py.contains (short_counter_token c) pattern = false) ->
  forall specs st,
    fst (process_counters_loop hash e user_id specs pattern st) = pattern.
Proof.
  intros Habs specs. induction specs as [|spec specs IH]; intros st.
  - reflexivity.
  - cbn [process_counters_loop].
    destruct (_get_counter hash user_id pattern st) as [v st1].
    destruct (index0 spec) as [c|x]; [|reflexivity].
    fold (short_counter_token c).
    destruct (Num.format_int (format_other e) v c) as [s|[]];
      try reflexivity;
      rewrite replace_absent by (reflexivity || apply Habs); apply IH.
Qed.

(** X6. [_process_counters] replaces counter tokens with a one-character
    format and nothing else: a pattern in which no token [{counter:c}] with
    a single character [c] occurs is returned as it is, whatever plain
    [{counter}] or longer formats such as [{counter:03d}] it holds. *)
Theorem process_counters_one_character_only (e : env) (pattern : string)
    (user_id : Z) (st : state)
    (Habsent : forall c, Py.contains (short_counter_token c) pattern = false) :
  fst (_process_counters hash e pattern user_id st) = pattern.
Proof. now apply process_counters_loop_absent. Qed.

End Tokens.

Lemma literal_pattern_render_witness :
  Py.has_char "{" "holiday//2024" = false /\
  finish sample_env report_pdf [] [("ext", ".pdf")] "holiday//2024" =
    "holiday_2024.pdf".
Proof.
  split; [reflexivity|].
  exact (proj2 (proj2 (proj2
           (literal_pattern_render sample_hash sample_env "holiday//2024" 7 empty_state 6
              report_pdf [] [("ext", ".pdf")] eq_refl)))).
Defined.

Lemma process_counters_one_character_only_witness :
  (forall c, Py.contains (short_counter_token c)
               "Movie_{counter:02d}_{original}_{counter}" = false) /\
  fst (_process_counters sample_hash sample_env
         "Movie_{counter:02d}_{original}_{counter}" 7 empty_state) =
  "Movie_{counter:02d}_{original}_{counter}".
Proof.
  assert (H : forall c, Py.contains (short_counter_token c)
                          "Movie_{counter:02d}_{original}_{counter}" = false)
    by (intros [[] [] [] [] [] [] [] []]; reflexivity).
  split; [exact H|].
  exact (process_counters_one_character_only sample_hash sample_env _ 7
           empty_state H).
Defined.

(** ** The lock *)

Section Lock.

Import Locked.

Variable hash : string -> Z.

Lemma release_acquire (w : world) :
  held w = false -> set_held false (set_held true w) = w.
Proof. destruct w. cbn. now intros ->. Qed.

Lemma set_plain_same (w : world) : set_plain (plain w) w = w.
Proof. now destruct w. Qed.

Lemma set_counters_same (w : world) :
  set_counters (user_counters (plain w)) w = w.
Proof. destruct w as [[c d] rows last h]. reflexivity. Qed.

Lemma with_lock_held {A : Type} (body : world -> outcome A) (w : world) :
  held w = true -> with_lock body w = Blocks.
Proof. unfold with_lock. now intros ->. Qed.

Lemma get_user_free (user_id : Z) (w : world) :
  held w = false ->
  Locked.get_user user_id w = Returns (db (plain w) !! user_id) w.
Proof.
  intros H. unfold Locked.get_user, with_lock. rewrite H.
  now rewrite (release_acquire w H).
Qed.

Lemma get_user_preference_free (user_id : Z) (key : string) (default : Z)
    (w : world) :
  held w = false ->
  Locked.get_user_preference user_id key default w =
  Returns (Database.get_user_preference (db (plain w)) user_id key default) w.
Proof.
  intros H. unfold Locked.get_user_preference, and_then.
  rewrite (get_user_free user_id w H).
  unfold Database.get_user_preference, Database.get_user.
  destruct (db (plain w) !! user_id) as [u|]; [|reflexivity].
  now destruct (Database.preferences u !! key).
Qed.

Lemma nested_get_user_blocks (user_id : Z) (w : world) :
  held w = true -> Locked.get_user user_id w = Blocks.
Proof. intros H. unfold Locked.get_user. now rewrite (with_lock_held _ w H). Qed.

Lemma set_user_preference_stuck (user_id : Z) (key : string) (value : Z)
    (w : world) :
  Locked.set_user_preference user_id key value w = Blocks.
Proof.
  unfold Locked.set_user_preference, with_lock.
  destruct (held w); [reflexivity|].
  unfold and_then. now rewrite (nested_get_user_blocks user_id (set_held true w)).
Qed.

(** X7. [Database.set_user_preference] never returns: it takes the lock and
    then calls [get_user], which waits for the same lock. *)
Theorem set_user_preference_blocks (user_id : Z) (key : string) (value : Z)
    (w : world) :
  Locked.set_user_preference user_id key value w = Blocks.
Proof.
  unfold Locked.set_user_preference, with_lock.
  destruct (held w); [reflexivity|].
  unfold and_then, Locked.get_user.
  now rewrite (with_lock_held _ (set_held true w)).
Qed.

Lemma increment_counter_blocks (user_id : Z) (pattern : string) (w : world) :
  Locked._increment_counter hash user_id pattern w = Blocks.
Proof.
  unfold Locked._increment_counter, and_then.
  destruct (Locked._get_counter hash user_id pattern w); [|reflexivity].
  now rewrite set_user_preference_stuck.
Qed.

(** With the lock free the reading of a counter is what the plain
    definition says, and the lock is free afterwards. *)
Lemma get_counter_free (user_id : Z) (pattern : string) (w : world) :
  held w = false ->
  Locked._get_counter hash user_id pattern w =
  Returns (fst (PatternManager._get_counter hash user_id pattern (plain w)))
    (set_plain (snd (PatternManager._get_counter hash user_id pattern (plain w)))
       w).
Proof.
  intros H. unfold Locked._get_counter, PatternManager._get_counter.
  destruct (user_counters (plain w) !! cache_key hash user_id pattern).
  - cbn [fst snd]. now rewrite set_plain_same.
  - unfold and_then. rewrite (get_user_preference_free _ _ _ w H).
    reflexivity.
Qed.

Lemma process_counters_loop_free (e : env) (user_id : Z)
    (specs : list string) (pattern : string) (w : world) :
  held w = false ->
  Locked.process_counters_loop hash e user_id specs pattern w =
  Returns
    (fst (PatternManager.process_counters_loop hash e user_id specs pattern
            (plain w)))
    (set_plain
       (snd (PatternManager.process_counters_loop hash e user_id specs
               pattern (plain w)))
       w).
Proof.
  revert pattern w. induction specs as [|spec specs IH]; intros pattern w H.
  - cbn. now rewrite set_plain_same.
  - cbn [Locked.process_counters_loop PatternManager.process_counters_loop].
    unfold and_then. rewrite (get_counter_free user_id pattern w H).
    destruct (PatternManager._get_counter hash user_id pattern (plain w))
      as [v st1].
    cbn [fst snd].
    assert (Hfree : held (set_plain st1 w) = false) by exact H.
    assert (Hnext : forall t,
              Locked.process_counters_loop hash e user_id specs t
                (set_plain st1 w) =
              Returns
                (fst (PatternManager.process_counters_loop hash e user_id
                        specs t st1))
                (set_plain
                   (snd (PatternManager.process_counters_loop hash e user_id
                           specs t st1))
                   w)).
    { intros t. rewrite (IH t _ Hfree). reflexivity. }
    destruct (index0 spec) as [c|x]; [|reflexivity].
    destruct (Num.format_int (format_other e) v c) as [s|[]];
      try reflexivity; apply Hnext.
Qed.

Lemma process_counters_unlocked (e : env) (pattern : string) (user_id : Z)
    (w : world) :
  held w = false ->
  Locked._process_counters hash e pattern user_id w =
  Returns
    (fst (PatternManager._process_counters hash e pattern user_id (plain w)))
    (set_plain
       (snd (PatternManager._process_counters hash e pattern user_id (plain w)))
       w).
Proof. intros Hfree. now apply process_counters_loop_free. Qed.

(** X8. The counters are read under the lock as the lock-free reading has
    it: with the lock free, the lock-aware [_process_counters] returns the
    text and the store of the plain one, and the lock is free again. *)
Theorem process_counters_free (e : env) (pattern : string) (user_id : Z)
    (w : world) (Hfree : held w = false) :
  Locked._process_counters hash e pattern user_id w =
  Returns
    (fst (PatternManager._process_counters hash e pattern user_id (plain w)))
    (set_plain
       (snd (PatternManager._process_counters hash e pattern user_id (plain w)))
       w) /\
  held (set_plain
          (snd (PatternManager._process_counters hash e pattern user_id
                  (plain w))) w) = false.
Proof.
  split; [now apply process_counters_loop_free | exact Hfree].
Qed.

Lemma build_context_overflow (e : env) (file : file_info) (user_id : Z)
    (st : state) :
  size_fits file = false ->
  exists x, build_context e file user_id st = Raise x.
Proof.
  unfold size_fits, build_context. intros H.
  destruct (_format_size _); [|eexists; reflexivity].
  destruct (format_size_mb _); [discriminate | eexists; reflexivity].
Qed.

Lemma apply_pattern_outcome (e : env) (pattern : string) (file : file_info)
    (user_id : Z) (kwargs : list (string * string)) (w : world) :
  Locked.apply_pattern hash e pattern file user_id kwargs w =
  if held w then Blocks
  else if size_fits file then Blocks
  else Returns (fallback_name e file) w.
Proof.
  unfold Locked.apply_pattern, and_then.
  destruct (held w) eqn:H.
  - unfold Locked.get_user. now rewrite (with_lock_held _ w H).
  - rewrite (get_user_free user_id w H).
    destruct (size_fits file) eqn:Hfit.
    + destruct (build_context_fits e file user_id (plain w) Hfit) as [c ->].
      rewrite (process_counters_unlocked e pattern user_id w H).
      now rewrite increment_counter_blocks.
    + destruct (build_context_overflow e file user_id (plain w) Hfit)
        as [x ->].
      reflexivity.
Qed.

(** X9. [apply_pattern] returns only when it falls back: with the lock
    free it returns the fallback name, and changes nothing, when building
    the context raises, and otherwise it blocks in [_increment_counter];
    [get_pattern_preview], which calls it, does the same. *)
Theorem apply_pattern_returns_only_fallback (e : env) (pattern : string)
    (file : file_info) (user_id : Z) (kwargs : list (string * string))
    (sample : option file_info) (w : world) :
  Locked.apply_pattern hash e pattern file user_id kwargs w =
    (if held w then Blocks
     else if size_fits file then Blocks
     else Returns (fallback_name e file) w) /\
  Locked.get_pattern_preview hash e pattern user_id sample w =
    (if held w then Blocks
     else if size_fits (get_default sample sample_file_info) then Blocks
     else Returns (fallback_name e (get_default sample sample_file_info)) w) /\
  Locked.get_pattern_preview hash e pattern user_id None w = Blocks.
Proof.
  assert (Hpreview : forall s,
            Locked.get_pattern_preview hash e pattern user_id s w =
            if held w then Blocks
            else if size_fits (get_default s sample_file_info) then Blocks
            else Returns (fallback_name e (get_default s sample_file_info)) w).
  { intros s. unfold Locked.get_pattern_preview, and_then.
    rewrite apply_pattern_outcome.
    destruct (held w); [reflexivity|].
    destruct (size_fits _); [reflexivity|].
    now rewrite set_counters_same. }
  split; [apply apply_pattern_outcome|]. split; [apply Hpreview|].
  rewrite Hpreview. now destruct (held w).
Qed.

End Lock.

(** ** Calls that return *)

Section Returning.

Import Locked.

Variable hash : string -> Z.

Lemma process_counters_free_witness :
  held sample_world = false /\
  Locked._process_counters sample_hash sample_env "{counter:d}" 7
    sample_world =
  Returns "4" sample_world.
Proof.
  split; [reflexivity|].
  destruct (process_counters_free sample_hash sample_env
              "{counter:d}" 7 sample_world eq_refl) as [-> _].
  vm_compute. reflexivity.
Defined.

(** X10. With the lock free, the other methods return and leave it free:
    [get_user], [get_user_preference], [add_user], [add_rename_pattern],
    [get_user_patterns], [_get_counter], [reset_user_counters],
    [save_user_pattern], [delete_user_pattern] and
    [increment_pattern_usage]. *)
Theorem free_lock_calls_return (w : world) (user_id pattern_id' : Z)
    (key name template pattern : string) (default : Z)
    (username first_name : option string) (global : bool)
    (Hfree : held w = false) :
  (exists u, Locked.get_user user_id w = Returns u w) /\
  (exists v, Locked.get_user_preference user_id key default w = Returns v w) /\
  (exists w', Locked.add_user user_id username first_name w = Returns tt w' /\
              held w' = false) /\
  (exists w', Locked.add_rename_pattern user_id name template global w =
                Returns true w' /\ held w' = false) /\
  (exists rows, Locked.get_user_patterns user_id w = Returns rows w) /\
  (exists v w', Locked._get_counter hash user_id pattern w = Returns v w' /\
                held w' = false) /\
  (exists w', Locked.reset_user_counters user_id w = Returns true w' /\
              held w' = false) /\
  (exists b w', Locked.save_user_pattern user_id name template w =
                  Returns b w' /\ held w' = false) /\
  (exists b w', Locked.delete_user_pattern user_id pattern_id' w =
                  Returns b w' /\ held w' = false) /\
  (exists w', Locked.increment_pattern_usage pattern_id' w = Returns tt w' /\
              held w' = false).
Proof.
  assert (Hadd : exists w', Locked.add_rename_pattern user_id name template
                              false w = Returns true w' /\ held w' = false).
  { unfold Locked.add_rename_pattern, with_lock. rewrite Hfree.
    eexists. split; reflexivity. }
  repeat apply conj.
  - eexists. now apply get_user_free.
  - eexists. now apply get_user_preference_free.
  - unfold Locked.add_user, with_lock. rewrite Hfree.
    eexists. split; reflexivity.
  - unfold Locked.add_rename_pattern, with_lock. rewrite Hfree.
    eexists. split; reflexivity.
  - unfold Locked.get_user_patterns, with_lock. rewrite Hfree.
    eexists. now rewrite (release_acquire w Hfree).
  - rewrite (get_counter_free hash user_id pattern w Hfree).
    eexists _, _. split; [reflexivity | exact Hfree].
  - unfold Locked.reset_user_counters, and_then.
    rewrite get_user_free by exact Hfree.
    destruct (db (plain (set_counters _ w)) !! user_id) as [u|].
    + unfold with_lock. cbn [held set_counters set_plain]. rewrite Hfree.
      eexists. split; reflexivity.
    + eexists. split; [reflexivity | exact Hfree].
  - unfold Locked.save_user_pattern.
    destruct (fst (validate_pattern template)).
    + destruct Hadd as (w' & -> & H'). now exists true, w'.
    + exists false, w. now split.
  - unfold Locked.delete_user_pattern, with_lock. rewrite Hfree.
    eexists _, _. split; reflexivity.
  - unfold Locked.increment_pattern_usage, with_lock. rewrite Hfree.
    eexists. split; reflexivity.
Qed.

End Returning.

Lemma free_lock_calls_return_witness :
  Locked.held sample_world = false /\
  exists w', Locked.reset_user_counters 7 sample_world =
               Locked.Returns true w' /\ Locked.held w' = false.
Proof.
  split; [reflexivity|].
  exact (proj1 (proj2 (proj2 (proj2 (proj2 (proj2 (proj2
           (free_lock_calls_return sample_hash sample_world 7 1 "k" "n"
              "{date}" "{counter:d}" 0 None None false eq_refl)))))))).
Defined.

(** ** Keys of the counter cache *)

Section Keys.

Lemma uint_no_underscore (d : Decimal.uint) :
  Py.has_char "_" (NilEmpty.string_of_uint d) = false.
Proof.
  induction d; cbn [NilEmpty.string_of_uint Py.has_char];
    try rewrite IHd; reflexivity.
Qed.

(** The decimal text of an integer has no underscore. *)
Lemma str_no_underscore (z : Z) : Py.has_char "_" (Py.str z) = false.
Proof.
  unfold Py.str. destruct (Z.to_int z) as [d|d];
    cbn [NilZero.string_of_int Py.has_char].
  - destruct d; try apply uint_no_underscore; reflexivity.
  - replace (Py.has_char "_" (NilZero.string_of_uint d)) with false;
      [reflexivity|].
    symmetry. destruct d; try apply uint_no_underscore; reflexivity.
Qed.

Lemma startswith_self (a b : string) : Py.startswith a (a ++ b) = true.
Proof.
  induction a as [|x a IH]; [reflexivity|].
  cbn [String.append Py.startswith]. now rewrite Ascii.eqb_refl, IH.
Qed.

Lemma prefix_up_to_underscore (a a' x : string) :
  Py.has_char "_" a = false -> Py.has_char "_" a' = false ->
  Py.startswith (a ++ "_") (a' ++ "_" ++ x) = true -> a = a'.
Proof.
  revert a'. induction a as [|c a IH]; intros [|c' a'] Ha Ha' H.
  - reflexivity.
  - cbn [Py.has_char] in Ha'. apply orb_false_iff in Ha' as [Hc' _].
    cbn [String.append Py.startswith] in H.
    apply andb_true_iff in H as [H _]. rewrite Ascii.eqb_sym in H. congruence.
  - cbn [Py.has_char] in Ha. apply orb_false_iff in Ha as [Hc _].
    cbn [String.append Py.startswith] in H.
    apply andb_true_iff in H as [H _]. congruence.
  - cbn [Py.has_char] in Ha, Ha'.
    apply orb_false_iff in Ha as [_ Ha]. apply orb_false_iff in Ha' as [_ Ha'].
    cbn [String.append Py.startswith] in H.
    apply andb_true_iff in H as [Hc H]. apply Ascii.eqb_eq in Hc. subst c'.
    f_equal. now apply IH.
Qed.

(** A cache key starts with ["<user_id>_"] for its own user only. *)
Lemma cache_key_prefix (hash : string -> Z) (user_id other : Z)
    (pattern : string) :
  Py.startswith (Py.str user_id ++ "_") (cache_key hash other pattern) =
  if Z.eq_dec user_id other then true else false.
Proof.
  unfold cache_key. destruct (Z.eq_dec user_id other) as [->|Hne].
  - rewrite <- (append_assoc (Py.str other) "_"). apply startswith_self.
  - destruct (Py.startswith _ _) eqn:E; [|reflexivity].
    apply prefix_up_to_underscore in E; try apply str_no_underscore.
    apply str_inj in E. contradiction.
Qed.

Lemma cache_key_inj (hash : string -> Z) (u u' : Z) (p p' : string) :
  cache_key hash u p = cache_key hash u' p' -> u = u' /\ hash p = hash p'.
Proof.
  intros H.
  assert (Hu : u = u').
  { pose proof (cache_key_prefix hash u u' p') as Hp.
    rewrite <- H in Hp. unfold cache_key in Hp at 1.
    rewrite <- (append_assoc (Py.str u) "_"), startswith_self in Hp.
    now destruct (Z.eq_dec u u'). }
  subst u'. split; [reflexivity | now apply (cache_key_hash hash u)].
Qed.

End Keys.

(** ** Reading, resetting and re-adding *)

Section Counters2.

Import Locked.

Variable hash : string -> Z.

Lemma get_counter_frame_all (user_id : Z) (q : string) (st : state) :
  db (snd (PatternManager._get_counter hash user_id q st)) = db st /\
  forall other p,
    counter_of hash other p (snd (PatternManager._get_counter hash user_id q st)) =
    counter_of hash other p st.
Proof.
  unfold PatternManager._get_counter.
  destruct (user_counters st !! cache_key hash user_id q) eqn:Hq;
    [split; reflexivity|].
  cbn [snd db]. split; [reflexivity|]. intros other p.
  rewrite !counter_of_eq. cbn [user_counters db].
  destruct (decide (cache_key hash user_id q = cache_key hash other p))
    as [Heq|Hne].
  - destruct (cache_key_inj hash _ _ _ _ Heq) as [<- Hh].
    rewrite <- Heq, lookup_insert_eq, Hq.
    unfold pref_key. now rewrite Hh.
  - now rewrite lookup_insert_ne.
Qed.

Lemma process_counters_loop_frame_all (e : env) (user_id : Z)
    (specs : list string) (pattern : string) (st : state) :
  db (snd (PatternManager.process_counters_loop hash e user_id specs pattern st))
    = db st /\
  forall other p,
    counter_of hash other p
      (snd (PatternManager.process_counters_loop hash e user_id specs pattern
              st)) =
    counter_of hash other p st.
Proof.
  revert pattern st. induction specs as [|spec specs IH]; intros pattern st.
  - split; reflexivity.
  - cbn [PatternManager.process_counters_loop].
    pose proof (get_counter_frame_all user_id pattern st) as [Hdb Hc].
    destruct (PatternManager._get_counter hash user_id pattern st) as [v st1].
    cbn [snd] in Hdb, Hc.
    assert (Hgo : forall t : string,
              db (snd (PatternManager.process_counters_loop hash e user_id
                         specs t st1)) = db st /\
              forall other p,
                counter_of hash other p
                  (snd (PatternManager.process_counters_loop hash e user_id
                          specs t st1)) =
                counter_of hash other p st).
    { intros t. destruct (IH t st1) as [Hdb' Hc']. split; [congruence|].
      intros other p. now rewrite Hc'. }
    destruct (index0 spec) as [c|x]; [|now split].
    destruct (Num.format_int (format_other e) v c) as [s|[]];
      auto; now split.
Qed.

(** X11. [_process_counters] only reads: it leaves the [users] table as it
    is, and no counter of any user and pattern reads differently after it
    (what it adds to the cache is what would have been read anyway). *)
Theorem process_counters_reads_only (e : env) (pattern : string)
    (user_id : Z) (st : state) :
  db (snd (PatternManager._process_counters hash e pattern user_id st)) =
    db st /\
  forall other p,
    counter_of hash other p
      (snd (PatternManager._process_counters hash e pattern user_id st)) =
    counter_of hash other p st.
Proof. apply process_counters_loop_frame_all. Qed.

(** X12. [reset_user_counters] with the lock free returns [True]; after
    it every counter of the user reads 1 again, for every pattern, and the
    counters of the other users, their rows and the saved patterns are as
    they were. *)
Theorem reset_user_counters_resets (user_id : Z) (w : world)
    (Hfree : held w = false) :
  exists w',
    Locked.reset_user_counters user_id w = Returns true w' /\
    (forall p, counter_of hash user_id p (plain w') = 1) /\
    (forall other p, other <> user_id ->
       counter_of hash other p (plain w') = counter_of hash other p (plain w) /\
       db (plain w') !! other = db (plain w) !! other) /\
    rename_patterns w' = rename_patterns w.
Proof.
  unfold Locked.reset_user_counters, and_then.
  rewrite get_user_free by exact Hfree.
  set (kept := filter _ (user_counters (plain w))).
  assert (Hown : forall p, kept !! cache_key hash user_id p = None).
  { intros p. apply map_lookup_filter_None_2. right. intros x _.
    cbn [fst]. rewrite cache_key_prefix.
    destruct (Z.eq_dec user_id user_id); [discriminate | contradiction]. }
  assert (Hother : forall other p, other <> user_id ->
            kept !! cache_key hash other p =
            user_counters (plain w) !! cache_key hash other p).
  { intros other p Hne. unfold kept. rewrite map_lookup_filter.
    destruct (user_counters (plain w) !! cache_key hash other p) as [v|];
      [|reflexivity].
    cbn. rewrite option_guard_True; [reflexivity|].
    cbn [fst]. rewrite cache_key_prefix.
    destruct (Z.eq_dec user_id other); [congruence | reflexivity]. }
  cbn [plain set_counters set_plain db].
  destruct (db (plain w) !! user_id) as [u|] eqn:Hrow.
  - unfold with_lock. cbn [held set_counters set_plain]. rewrite Hfree.
    eexists. split; [reflexivity|].
    cbn [plain set_users set_plain set_held user_counters db rename_patterns].
    repeat split.
    + intros p. rewrite counter_of_eq. cbn [user_counters db]. rewrite Hown.
      unfold Database.get_user_preference, Database.get_user.
      rewrite lookup_insert_eq. cbn [Database.preferences Database.set_preferences].
      replace (filter _ (Database.preferences u) !! pref_key hash p)
        with (@None Z); [reflexivity|].
      symmetry. apply map_lookup_filter_None_2. right. intros x _.
      cbn [fst]. unfold pref_key. now rewrite startswith_self.
    + rewrite !counter_of_eq. cbn [user_counters db].
      rewrite (Hother _ _ H).
      unfold Database.get_user_preference, Database.get_user.
      now rewrite lookup_insert_ne by congruence.
    + now rewrite lookup_insert_ne by congruence.
  - eexists. split; [reflexivity|].
    cbn [plain set_counters set_plain user_counters db rename_patterns].
    repeat split.
    + intros p. rewrite counter_of_eq. cbn [user_counters db]. rewrite Hown.
      unfold Database.get_user_preference, Database.get_user.
      now rewrite Hrow.
    + rewrite !counter_of_eq. cbn [user_counters db].
      now rewrite (Hother _ _ H).
Qed.

(** X13. [add_user] on a user who has a row replaces the row: with the lock
    free it returns, and afterwards every stored preference of the user is
    gone ([get_user_preference] gives the default for every key), so a
    counter that is not cached reads 1 again; the other rows and the cache
    are as they were. *)
Theorem add_user_erases_preferences (user_id : Z)
    (username first_name : option string) (w : world)
    (Hfree : held w = false) :
  exists w',
    Locked.add_user user_id username first_name w = Returns tt w' /\
    (forall key default,
       Locked.get_user_preference user_id key default w' =
       Returns default w') /\
    (forall p, user_counters (plain w) !! cache_key hash user_id p = None ->
       counter_of hash user_id p (plain w') = 1) /\
    (forall other, other <> user_id ->
       db (plain w') !! other = db (plain w) !! other) /\
    user_counters (plain w') = user_counters (plain w).
Proof.
  unfold Locked.add_user, with_lock. rewrite Hfree.
  eexists. split; [reflexivity|].
  cbn [plain set_users set_plain set_held user_counters db].
  repeat split.
  - intros key default. rewrite get_user_preference_free by reflexivity.
    cbn [plain set_held set_users set_plain db user_counters].
    unfold Database.get_user_preference, Database.get_user.
    rewrite lookup_insert_eq. cbn [Database.preferences].
    now rewrite lookup_empty.
  - intros p Hcold. rewrite counter_of_eq. cbn [user_counters db].
    rewrite Hcold. unfold Database.get_user_preference, Database.get_user.
    rewrite lookup_insert_eq. cbn [Database.preferences].
    now rewrite lookup_empty.
  - intros other Hne. now rewrite lookup_insert_ne by congruence.
Qed.

End Counters2.

Lemma reset_user_counters_resets_witness :
  Locked.held sample_world = false /\
  counter_of sample_hash 7 "{counter:d}" (Locked.plain sample_world) = 4 /\
  exists w',
    Locked.reset_user_counters 7 sample_world = Locked.Returns true w' /\
    counter_of sample_hash 7 "{counter:d}" (Locked.plain w') = 1.
Proof.
  split; [reflexivity|]. split; [vm_compute; reflexivity|].
  destruct (reset_user_counters_resets sample_hash 7 sample_world eq_refl)
    as (w' & Hret & Hone & _).
  exists w'. split; [exact Hret | apply Hone].
Defined.

Lemma add_user_erases_preferences_witness :
  Locked.held sample_world = false /\
  Locked.get_user_preference 7 (pref_key sample_hash "{counter:d}") 1
    sample_world = Locked.Returns 4 sample_world /\
  exists w',
    Locked.add_user 7 (Some "ann") (Some "Ann") sample_world =
      Locked.Returns tt w' /\
    Locked.get_user_preference 7 (pref_key sample_hash "{counter:d}") 1 w' =
      Locked.Returns 1 w'.
Proof.
  split; [reflexivity|]. split; [vm_compute; reflexivity|].
  destruct (add_user_erases_preferences sample_hash 7 (Some "ann") (Some "Ann")
              sample_world eq_refl) as (w' & Hret & Hgone & _).
  exists w'. split; [exact Hret | apply Hgone].
Defined.

(** ** Saved patterns *)

Section SavedPatterns.

Import Locked.

Lemma row_before_total (a b : pattern_row) :
  row_before a b = false -> row_before b a = true.
Proof.
  unfold row_before. intros H.
  apply orb_false_iff in H as [Hlt Heq]. apply Z.ltb_ge in Hlt.
  destruct (Z.ltb_spec (usage_count a) (usage_count b)) as [|Hge];
    [reflexivity|].
  assert (Hsame : usage_count a = usage_count b) by lia.
  rewrite Hsame, Z.eqb_refl in *. cbn [andb orb] in *.
  destruct (String.leb_total (pattern_name a) (pattern_name b)); congruence.
Qed.

Lemma insert_row_In (r x : pattern_row) (rows : list pattern_row) :
  In x (insert_row r rows) <-> x = r \/ In x rows.
Proof.
  induction rows as [|y rows IH]; cbn [insert_row].
  - cbn. intuition.
  - destruct (row_before y r); cbn [In] in *; [rewrite IH; intuition | intuition].
Qed.

Lemma order_rows_In (x : pattern_row) (rows : list pattern_row) :
  In x (order_rows rows) <-> In x rows.
Proof.
  unfold order_rows.
  assert (H : forall acc, In x (fold_left (fun sorted r => insert_row r sorted)
                                  rows acc) <-> In x rows \/ In x acc).
  { induction rows as [|r rows IH]; intros acc; cbn [fold_left In].
    - intuition.
    - rewrite IH, insert_row_In. intuition. }
  rewrite H. cbn. intuition.
Qed.

Lemma insert_row_sorted (r : pattern_row) (rows : list pattern_row) :
  Sorted row_order rows -> Sorted row_order (insert_row r rows).
Proof.
  induction rows as [|y rows IH]; intros Hs; cbn [insert_row].
  - repeat constructor.
  - destruct (row_before y r) eqn:E.
    + inversion Hs as [|? ? Hrest Hhd]; subst.
      constructor; [now apply IH|].
      destruct rows as [|z rows]; cbn [insert_row].
      * constructor. exact E.
      * destruct (row_before z r); constructor.
        -- now inversion Hhd.
        -- exact E.
    + constructor; [exact Hs | constructor; now apply row_before_total].
Qed.

Lemma order_rows_sorted (rows : list pattern_row) :
  Sorted row_order (order_rows rows).
Proof.
  unfold order_rows.
  assert (H : forall acc, Sorted row_order acc ->
            Sorted row_order
              (fold_left (fun sorted r => insert_row r sorted) rows acc)).
  { induction rows as [|r rows IH]; intros acc Hacc; cbn [fold_left].
    - exact Hacc.
    - apply IH. now apply insert_row_sorted. }
  apply H. constructor.
Qed.

Lemma sorted_by_usage (rows : list pattern_row) :
  Sorted row_order rows ->
  Sorted (fun a b => usage_count b <= usage_count a) rows.
Proof.
  intros Hs. induction Hs as [|a l Hl IH Hhd]; constructor; [exact IH|].
  destruct Hhd as [|b l Hab]; constructor.
  unfold row_order, row_before in Hab.
  apply orb_true_iff in Hab as [H|H]; [apply Z.ltb_lt in H; lia|].
  apply andb_true_iff in H as [H _]. apply Z.eqb_eq in H. lia.
Qed.

Lemma get_user_patterns_free (user_id : Z) (w : world) :
  held w = false ->
  Locked.get_user_patterns user_id w =
  Returns (order_rows (List.filter (visible_to user_id) (rename_patterns w))) w.
Proof.
  intros Hfree. unfold Locked.get_user_patterns, with_lock. rewrite Hfree.
  now rewrite (release_acquire w Hfree).
Qed.

Lemma visible_row (user_id : Z) (rows : list pattern_row) (r : pattern_row) :
  In r (order_rows (List.filter (visible_to user_id) rows)) <->
  In r rows /\ (owner_id r = user_id \/ is_global r = true).
Proof.
  rewrite order_rows_In, filter_In. unfold visible_to.
  rewrite orb_true_iff, Z.eqb_eq. reflexivity.
Qed.

(** X14. [get_user_patterns] with the lock free returns exactly the rows
    that are the user's own or global, each as it is stored, ordered by
    falling usage count and then by name; it changes nothing. *)
Theorem get_user_patterns_listing (user_id : Z) (w : world)
    (Hfree : held w = false) :
  exists rows,
    Locked.get_user_patterns user_id w = Returns rows w /\
    (forall r, In r rows <->
               In r (rename_patterns w) /\
               (owner_id r = user_id \/ is_global r = true)) /\
    Sorted row_order rows /\
    Sorted (fun a b => usage_count b <= usage_count a) rows.
Proof.
  eexists. split; [now apply get_user_patterns_free|].
  split; [|split].
  - intros r. apply visible_row.
  - apply order_rows_sorted.
  - apply sorted_by_usage, order_rows_sorted.
Qed.

Lemma nodup_snoc (l : list Z) (x : Z) :
  List.NoDup l -> ~ In x l -> List.NoDup (l ++ [x])%list.
Proof.
  induction 1 as [|a l Ha Hl IH]; intros Hx; cbn [app].
  - constructor; [exact Hx | constructor].
  - constructor.
    + intros Hin. apply in_app_or in Hin as [Hin|Hin].
      * now apply Ha.
      * cbn [In] in Hin. destruct Hin as [->|[]]. apply Hx. now left.
    + apply IH. intros Hin. apply Hx. now right.
Qed.

Lemma nodup_map_filter (f : pattern_row -> bool) (l : list pattern_row) :
  List.NoDup (List.map pattern_id l) ->
  List.NoDup (List.map pattern_id (List.filter f l)).
Proof.
  induction l as [|a l IH]; cbn [List.filter List.map]; intros H;
    [constructor|].
  inversion H as [|? ? Hn Hl]; subst.
  destruct (f a); cbn [List.map]; [|now apply IH].
  constructor; [|now apply IH].
  intros Hin. apply Hn.
  apply in_map_iff in Hin as (r & Hr & Hin).
  apply filter_In in Hin as [Hin _].
  apply in_map_iff. now exists r.
Qed.

Lemma bump_usage_id (i : Z) (l : list pattern_row) :
  List.map pattern_id (List.map (bump_usage i) l) = List.map pattern_id l.
Proof.
  induction l as [|a l IH]; cbn [List.map]; [reflexivity|].
  rewrite IH. f_equal. unfold bump_usage.
  now destruct (pattern_id a =? i).
Qed.

Lemma bounded_In (w : world) (r : pattern_row) :
  ids_bounded w -> In r (rename_patterns w) ->
  pattern_id r <= last_pattern_id w.
Proof.
  unfold ids_bounded. intros Hb Hin.
  exact (proj1 (List.Forall_forall _ _) Hb r Hin).
Qed.

Lemma next_id_fresh (w : world) :
  ids_bounded w ->
  ~ In (last_pattern_id w + 1) (List.map pattern_id (rename_patterns w)).
Proof.
  intros Hb Hin. apply in_map_iff in Hin as (r & Hr & Hin).
  pose proof (bounded_In w r Hb Hin). lia.
Qed.

Lemma add_rename_pattern_ids (user_id : Z) (name template : string)
    (global : bool) (w : world) :
  held w = false -> ids_bounded w -> ids_distinct w ->
  exists w',
    Locked.add_rename_pattern user_id name template global w =
      Returns true w' /\
    rename_patterns w' =
      (rename_patterns w ++
       [ {| pattern_id := last_pattern_id w + 1; owner_id := user_id;
            pattern_name := name; pattern_template := template;
            is_global := global; usage_count := 0 |} ])%list /\
    plain w' = plain w /\ held w' = false /\
    ids_bounded w' /\ ids_distinct w'.
Proof.
  intros Hfree Hb Hd.
  unfold Locked.add_rename_pattern, with_lock. rewrite Hfree.
  eexists. split; [reflexivity|].
  unfold ids_bounded, ids_distinct.
  cbn [rename_patterns plain held last_pattern_id set_patterns set_held].
  repeat split.
  - apply List.Forall_forall. intros r Hin.
    apply in_app_or in Hin as [Hin|[<-|[]]]; cbn [pattern_id]; [|lia].
    pose proof (bounded_In w r Hb Hin). lia.
  - rewrite List.map_app. cbn [List.map pattern_id].
    apply nodup_snoc; [exact Hd | now apply next_id_fresh].
Qed.

(** X15. The ids of the saved patterns stay bounded by the largest id ever
    given and pairwise distinct: when that holds and the lock is free, it
    holds again after [add_rename_pattern], after [delete_user_pattern] and
    after [increment_pattern_usage], each of which returns. *)
Theorem pattern_ids_invariant (user_id pattern_id' : Z)
    (name template : string) (global : bool) (w : world)
    (Hfree : held w = false)
    (Hbounded : ids_bounded w)
    (Hdistinct : ids_distinct w) :
  (exists w',
     Locked.add_rename_pattern user_id name template global w =
       Returns true w' /\ ids_bounded w' /\ ids_distinct w') /\
  (exists b w',
     Locked.delete_user_pattern user_id pattern_id' w = Returns b w' /\
     ids_bounded w' /\ ids_distinct w') /\
  (exists w',
     Locked.increment_pattern_usage pattern_id' w = Returns tt w' /\
     ids_bounded w' /\ ids_distinct w').
Proof.
  split; [|split].
  - destruct (add_rename_pattern_ids user_id name template global w
                Hfree Hbounded Hdistinct)
      as (w' & Hret & _ & _ & _ & Hb & Hd).
    now exists w'.
  - unfold Locked.delete_user_pattern, with_lock. rewrite Hfree.
    do 2 eexists. split; [reflexivity|].
    unfold ids_bounded, ids_distinct.
    cbn [rename_patterns last_pattern_id set_patterns set_held]. split.
    + apply List.Forall_forall. intros r Hin.
      apply filter_In in Hin as [Hin _]. now apply bounded_In.
    + now apply nodup_map_filter.
  - unfold Locked.increment_pattern_usage, with_lock. rewrite Hfree.
    eexists. split; [reflexivity|].
    unfold ids_bounded, ids_distinct.
    cbn [rename_patterns last_pattern_id set_patterns set_held]. split.
    + apply List.Forall_forall. intros r Hin.
      apply in_map_iff in Hin as (r0 & <- & Hin).
      pose proof (bounded_In w r0 Hbounded Hin) as Hle.
      unfold bump_usage. now destruct (pattern_id r0 =? pattern_id').
    + rewrite bump_usage_id. exact Hdistinct.
Qed.

(** X16. [save_user_pattern] on a template that [validate_pattern] accepts,
    with the lock free and the ids bounded by the largest id given so far,
    returns [True] and adds one row at the end of the table: the user as
    owner, not global, never used, and with an id that no stored row has;
    the ids are bounded as before; the user then finds the row in
    [get_user_patterns], and the rows that were there, the counters and the
    [users] table are untouched. *)
Theorem save_user_pattern_stores (user_id : Z) (name template : string)
    (w : world)
    (Hfree : held w = false)
    (Hvalid : fst (validate_pattern template) = true)
    (Hids : ids_bounded w) :
  let row := {| pattern_id := last_pattern_id w + 1; owner_id := user_id;
                pattern_name := name; pattern_template := template;
                is_global := false; usage_count := 0 |} in
  exists w',
    Locked.save_user_pattern user_id name template w = Returns true w' /\
    rename_patterns w' = (rename_patterns w ++ [row])%list /\
    (forall r, In r (rename_patterns w) -> pattern_id r <> pattern_id row) /\
    ids_bounded w' /\
    plain w' = plain w /\
    exists rows,
      Locked.get_user_patterns user_id w' = Returns rows w' /\ In row rows.
Proof.
  cbn zeta. unfold Locked.save_user_pattern. rewrite Hvalid.
  unfold Locked.add_rename_pattern, with_lock. rewrite Hfree.
  eexists. split; [reflexivity|].
  unfold ids_bounded.
  cbn [rename_patterns plain last_pattern_id set_patterns set_held pattern_id].
  split; [reflexivity|]. split; [|split; [|split; [reflexivity|]]].
  - intros r Hin. pose proof (bounded_In w r Hids Hin). lia.
  - apply List.Forall_forall. intros r Hin.
    apply in_app_or in Hin as [Hin|[<-|[]]]; cbn [pattern_id]; [|lia].
    pose proof (bounded_In w r Hids Hin). lia.
  - eexists. split; [now apply get_user_patterns_free|].
    apply visible_row. cbn [rename_patterns set_patterns set_held owner_id].
    split; [|now left]. apply in_or_app. right. now left.
Qed.

(** X17. [delete_user_pattern] with the lock free removes the rows that
    have the given id and belong to the given user, and no other: it
    returns whether there was one, and a pattern of another user, global
    ones included, stays whatever id is passed. *)
Theorem delete_user_pattern_own_only (user_id pattern_id' : Z) (w : world)
    (Hfree : held w = false) :
  exists b w',
    Locked.delete_user_pattern user_id pattern_id' w = Returns b w' /\
    (b = true <->
     exists r, In r (rename_patterns w) /\
               pattern_id r = pattern_id' /\ owner_id r = user_id) /\
    (forall r, In r (rename_patterns w') <->
               In r (rename_patterns w) /\
               ~ (pattern_id r = pattern_id' /\ owner_id r = user_id)) /\
    plain w' = plain w.
Proof.
  unfold Locked.delete_user_pattern, with_lock. rewrite Hfree.
  eexists _, _. split; [reflexivity|].
  cbn [rename_patterns plain set_patterns set_held].
  assert (Hd : forall r, deleted_by user_id pattern_id' r = true <->
                         pattern_id r = pattern_id' /\ owner_id r = user_id).
  { intros r. unfold deleted_by. now rewrite andb_true_iff, !Z.eqb_eq. }
  split; [|split; [|reflexivity]].
  - rewrite existsb_exists. split; intros (r & Hr & H); exists r;
      (split; [exact Hr | now apply Hd]).
  - intros r. rewrite filter_In, negb_true_iff, <- Hd.
    destruct (deleted_by user_id pattern_id' r); intuition congruence.
Qed.

End SavedPatterns.

Lemma get_user_patterns_listing_witness :
  Locked.held sample_world = false /\
  Locked.get_user_patterns 7 sample_world =
  Locked.Returns
    [ Locked.PatternRow 3 9 "shared" "{type}_{original}" true 5;
      Locked.PatternRow 1 7 "mine" "{date}_{original}" false 2 ]
    sample_world.
Proof.
  split; [reflexivity|].
  destruct (get_user_patterns_listing 7 sample_world eq_refl)
    as (rows & Hret & _).
  rewrite Hret. vm_compute in Hret. now injection Hret as <-.
Defined.

Lemma sample_world_bounded : ids_bounded sample_world.
Proof.
  unfold ids_bounded, sample_world.
  cbn [Locked.rename_patterns Locked.last_pattern_id].
  repeat constructor; cbn [Locked.pattern_id]; lia.
Defined.

Lemma sample_world_distinct : ids_distinct sample_world.
Proof.
  unfold ids_distinct, sample_world.
  cbn [Locked.rename_patterns List.map Locked.pattern_id].
  repeat constructor; cbn [In]; intros H;
    repeat (destruct H as [H|H]; [discriminate H|]); exact H.
Defined.

Lemma save_user_pattern_stores_witness :
  (Locked.held sample_world = false /\
   fst (validate_pattern "{date}_{time}_{original}") = true /\
   ids_bounded sample_world) /\
  exists w',
    Locked.save_user_pattern 7 "dated" "{date}_{time}_{original}"
      sample_world = Locked.Returns true w' /\
    Locked.rename_patterns w' =
      (Locked.rename_patterns sample_world ++
       [ Locked.PatternRow 4 7 "dated" "{date}_{time}_{original}" false 0 ])%list.
Proof.
  split; [split; [reflexivity | split;
            [reflexivity | exact sample_world_bounded]]|].
  destruct (save_user_pattern_stores 7 "dated" "{date}_{time}_{original}"
              sample_world eq_refl eq_refl sample_world_bounded)
    as (w' & Hret & Hrows & _).
  exists w'. split; [exact Hret | exact Hrows].
Defined.

Lemma pattern_ids_invariant_witness :
  (Locked.held sample_world = false /\ ids_bounded sample_world /\
   ids_distinct sample_world) /\
  exists w',
    Locked.increment_pattern_usage 2 sample_world = Locked.Returns tt w' /\
    ids_bounded w' /\ ids_distinct w'.
Proof.
  split;
    [split; [reflexivity | split;
       [exact sample_world_bounded | exact sample_world_distinct]]|].
  exact (proj2 (proj2 (pattern_ids_invariant 7 2 "n" "t" false sample_world
                         eq_refl sample_world_bounded
                         sample_world_distinct))).
Defined.

Lemma delete_user_pattern_own_only_witness :
  Locked.held sample_world = false /\
  exists w',
    Locked.delete_user_pattern 7 3 sample_world = Locked.Returns false w' /\
    Locked.rename_patterns w' = Locked.rename_patterns sample_world.
Proof.
  split; [reflexivity|].
  destruct (delete_user_pattern_own_only 7 3 sample_world eq_refl)
    as (b & w' & Hret & _).
  exists w'. vm_compute in Hret. injection Hret as <- <-.
  split; reflexivity.
Defined.

(** ** Random digits and the short identifier *)

Section Entropy.

Lemma digit_str (d : nat) :
  (d < 10)%nat ->
  String.length (Py.str (Z.of_nat d)) = 1%nat /\
  all_chars Re.isdigit (Py.str (Z.of_nat d)) = true.
Proof.
  intros H.
  do 10 (destruct d as [|d]; [split; reflexivity|]). lia.
Qed.

(** X18. [_generate_random_number(length)] is made of exactly [length]
    characters, all of them decimal digits, whatever is drawn. *)
Theorem generate_random_number_digits (e : env) (pos length : nat) :
  String.length (_generate_random_number e pos length) = length /\
  all_chars Re.isdigit (_generate_random_number e pos length) = true.
Proof.
  revert pos. induction length as [|k IH]; intros pos; [split; reflexivity|].
  cbn [_generate_random_number].
  assert (Hd : (randint e pos mod 10 < 10)%nat)
    by (apply Nat.mod_upper_bound; lia).
  destruct (digit_str _ Hd) as [Hlen Hdig].
  destruct (IH (S pos)) as [IHlen IHdig].
  destruct (Py.str (Z.of_nat (randint e pos mod 10))) as [|c [|c' s]];
    try discriminate.
  cbn [String.append String.length all_chars] in *.
  rewrite IHlen, IHdig. split; [reflexivity|].
  now rewrite andb_true_r in Hdig |- *.
Qed.

Lemma process_random_loop_absent (e : env) (pattern : string) :
  (forall c, Py.contains (short_random_token c) pattern = false) ->
  forall specs pos, process_random_loop e pos specs pattern = pattern.
Proof.
  intros Habs specs. induction specs as [|spec specs IH]; intros pos.
  - reflexivity.
  - cbn [process_random_loop].
    destruct (index0 spec) as [c|x]; [|reflexivity].
    fold (short_random_token c).
    rewrite replace_absent by (reflexivity || apply Habs). apply IH.
Qed.

(** X19. [_process_random_variables] replaces random tokens with a width of
    one character and nothing else: a pattern in which no token
    [{random:c}] with a single character [c] occurs is returned as it is, so
    a width of two digits or more, as in [{random:12}], is never filled
    in. *)
Theorem process_random_one_character_only (e : env) (pos : nat)
    (pattern : string)
    (Habsent : forall c, Py.contains (short_random_token c) pattern = false) :
  _process_random_variables e pos pattern = pattern.
Proof. now apply process_random_loop_absent. Qed.

Lemma replace_dash_length (s : string) :
  String.length (Py.replace "-" "" s) =
    (String.length s - Py.count "-" s)%nat /\
  (Py.count "-" s <= String.length s)%nat /\
  Py.has_char "-" (Py.replace "-" "" s) = false.
Proof.
  unfold Py.replace, Py.count.
  induction s as [|a s (IHlen & IHle & IHno)]; [repeat split; reflexivity|].
  cbn [Py.replace_from Py.count_from Py.startswith String.length].
  destruct (Ascii.eqb "-" a) eqn:E; cbn [andb String.append String.length Nat.sub].
  - repeat split; [rewrite IHlen; reflexivity | lia | exact IHno].
  - cbn [Py.has_char]. rewrite Ascii.eqb_sym, E, IHno, IHlen.
    repeat split; lia.
Qed.

Lemma take_length (n : nat) (s : string) :
  String.length (Py.take n s) = Nat.min n (String.length s).
Proof.
  revert s. induction n as [|n IH]; intros [|c s]; cbn; try reflexivity.
  now rewrite IH.
Qed.

Lemma take_has_char (c : ascii) (n : nat) (s : string) :
  Py.has_char c s = false -> Py.has_char c (Py.take n s) = false.
Proof.
  revert s. induction n as [|n IH]; intros [|a s]; cbn [Py.take Py.has_char];
    try reflexivity.
  intros H. apply orb_false_iff in H as [Ha Hs]. now rewrite Ha, IH.
Qed.

(** X20. [_generate_short_uuid] returns the first eight characters of the
    identifier that are left when the dashes are taken out: it never holds a
    dash, and its length is eight, or less when the identifier has fewer
    than eight other characters. *)
Theorem generate_short_uuid_shape (e : env) :
  Py.has_char "-" (_generate_short_uuid e) = false /\
  String.length (_generate_short_uuid e) =
    Nat.min 8 (String.length (uuid4 e) - Py.count "-" (uuid4 e)) /\
  (String.length (_generate_short_uuid e) <= 8)%nat.
Proof.
  unfold _generate_short_uuid.
  destruct (replace_dash_length (uuid4 e)) as (Hlen & _ & Hno).
  rewrite take_length, Hlen.
  split; [now apply take_has_char|]. split; [reflexivity | lia].
Qed.

End Entropy.

Lemma process_random_one_character_only_witness :
  (forall c, Py.contains (short_random_token c) "take_{random:12}" = false) /\
  _process_random_variables sample_env 6 "take_{random:12}" =
  "take_{random:12}".
Proof.
  assert (H : forall c, Py.contains (short_random_token c)
                          "take_{random:12}" = false)
    by (intros [[] [] [] [] [] [] [] []]; reflexivity).
  split; [exact H|].
  exact (process_random_one_character_only sample_env 6 _ H).
Defined.

(** ** Sizes that fit a float, and sizes that do not *)

Section SizeLimits.

Variable hash : string -> Z.

(** A count from 2^53 on is rounded to no less than the power of two below
    it. *)
Lemma round53_floor (n : Z) :
  2 ^ 53 <= n -> 2 ^ Z.log2 n <= Num.round53 n.
Proof.
  intros Hn. assert (Hpos : 0 < n) by lia.
  unfold Num.round53. rewrite (Z.abs_eq n) by lia.
  assert (Hb : 53 <= Z.log2 n) by (apply Z.log2_le_pow2; lia).
  replace (Z.log2 n + 1 <=? 53) with false by (symmetry; apply Z.leb_gt; lia).
  cbv zeta.
  set (sh := Z.log2 n + 1 - 53).
  assert (Hsh : 1 <= sh) by (unfold sh; lia).
  rewrite Z.sgn_pos, Z.mul_1_l by lia.
  rewrite !Z.shiftl_mul_pow2, Z.shiftr_div_pow2 by lia.
  rewrite Z.mul_1_l.
  assert (Hpow : 0 < 2 ^ sh) by (apply Z.pow_pos_nonneg; lia).
  assert (Hsplit : 2 ^ Z.log2 n = 2 ^ 52 * 2 ^ sh).
  { rewrite <- Z.pow_add_r by lia. f_equal. unfold sh. lia. }
  assert (Hq : 2 ^ 52 <= n / 2 ^ sh).
  { apply Z.div_le_lower_bound; [exact Hpow|].
    destruct (Z.log2_spec n Hpos) as [Hl _]. rewrite Hsplit in Hl. lia. }
  rewrite Hsplit.
  apply Z.mul_le_mono_nonneg_r; [lia|].
  destruct (_ || _); lia.
Qed.

Lemma to_float_overflow (n : Z) :
  2 ^ 1024 <= n -> Num.to_float (Num.Int n) = Raise OverflowError.
Proof.
  intros Hn. unfold Num.to_float.
  assert (H53 : 2 ^ 53 <= n).
  { apply Z.le_trans with (2 ^ 1024); [|exact Hn].
    apply Z.pow_le_mono_r; lia. }
  assert (Hlog : 1024 <= Z.log2 n) by (apply Z.log2_le_pow2; lia).
  pose proof (round53_floor n H53) as Hfloor.
  assert (Hup : 2 ^ 1024 <= 2 ^ Z.log2 n) by (apply Z.pow_le_mono_r; lia).
  replace (Z.abs (Num.round53 n) <? 2 ^ 1024) with false; [reflexivity|].
  symmetry. apply Z.ltb_ge. rewrite Z.abs_eq; [|apply Z.le_trans with (2 ^ 1024)].
  - now apply Z.le_trans with (2 ^ Z.log2 n).
  - apply Z.pow_nonneg. lia.
  - now apply Z.le_trans with (2 ^ Z.log2 n).
Qed.

Lemma large_count (n : Z) : 2 ^ 1024 <= n -> 1024 <= n.
Proof.
  intros Hn. apply Z.le_trans with (2 ^ 1024); [|exact Hn].
  apply (Z.pow_le_mono_r 2 10 1024); lia.
Qed.

Lemma format_size_overflow (n : Z) :
  2 ^ 1024 <= n -> _format_size n = Raise OverflowError.
Proof.
  intros Hn. pose proof (large_count n Hn) as Hk.
  unfold _format_size.
  replace (n =? 0) with false by (symmetry; apply Z.eqb_neq; lia).
  cbn [format_size_loop Num.lt_1024].
  replace (n <? 1024) with false by (symmetry; apply Z.ltb_ge; lia).
  unfold Num.div_1024. now rewrite to_float_overflow.
Qed.

Lemma size_fits_count (file : file_info) :
  match fi_size file with
  | Some n => 0 <= n < 2 ^ 64
  | None => True
  end ->
  size_fits file = true.
Proof.
  intros H. unfold size_fits.
  assert (Hn : 0 <= get_default (fi_size file) 0 < 2 ^ 64).
  { destruct (fi_size file); cbn [get_default]; [exact H|].
    split; [lia | reflexivity]. }
  now rewrite (format_size_count _ Hn), (format_size_mb_count _ Hn).
Qed.

(** X21. For every file whose size is absent or a count below 2^64,
    [apply_pattern] called with the lock free does not return: the context
    is built, the counters are read, and the call stops in
    [_increment_counter], where [set_user_preference] takes the lock it
    already holds.  No name is produced for any such file, whatever the
    pattern and the user. *)
Theorem apply_pattern_blocks_on_counts (e : env) (pattern : string)
    (file : file_info) (user_id : Z) (kwargs : list (string * string))
    (w : Locked.world)
    (Hfree : Locked.held w = false)
    (Hsize : match fi_size file with
             | Some n => 0 <= n < 2 ^ 64
             | None => True
             end) :
  Locked.apply_pattern hash e pattern file user_id kwargs w = Locked.Blocks.
Proof.
  rewrite apply_pattern_outcome, Hfree.
  now rewrite (size_fits_count file Hsize).
Qed.

(** X22. A size from 2^1024 on does not fit a float: [_format_size] raises
    [OverflowError] on it, and [apply_pattern], called with the lock free for
    a file of that size, returns the fallback name, the stem, the time stamp
    and the extension, and changes nothing. *)
Theorem oversized_file_falls_back (e : env) (pattern : string)
    (file : file_info) (user_id : Z) (kwargs : list (string * string))
    (w : Locked.world) (n : Z)
    (Hfree : Locked.held w = false)
    (Hsize : fi_size file = Some n)
    (Hlarge : 2 ^ 1024 <= n) :
  _format_size n = Raise OverflowError /\
  Locked.apply_pattern hash e pattern file user_id kwargs w =
  Locked.Returns (fallback_name e file) w.
Proof.
  split; [now apply format_size_overflow|].
  rewrite apply_pattern_outcome, Hfree.
  unfold size_fits. rewrite Hsize. cbn [get_default].
  now rewrite (format_size_overflow n Hlarge).
Qed.

End SizeLimits.

Lemma apply_pattern_blocks_on_counts_witness :
  Locked.held sample_world = false /\
  Locked.apply_pattern sample_hash sample_env "{counter:d}_{original}"
    report_pdf 7 [] sample_world = Locked.Blocks.
Proof.
  split; [reflexivity|].
  apply (apply_pattern_blocks_on_counts sample_hash sample_env
           "{counter:d}_{original}" report_pdf 7 [] sample_world).
  - reflexivity.
  - vm_compute. split; [discriminate | reflexivity].
Defined.

Lemma oversized_file_falls_back_witness :
  _format_size (2 ^ 1024) = Raise OverflowError /\
  Locked.apply_pattern sample_hash sample_env "{original}"
    (FileInfo (Some "dump.bin") (Some (2 ^ 1024)) None) 7 [] sample_world =
  Locked.Returns
    (fallback_name sample_env
       (FileInfo (Some "dump.bin") (Some (2 ^ 1024)) None))
    sample_world.
Proof.
  apply (oversized_file_falls_back sample_hash sample_env "{original}"
           (FileInfo (Some "dump.bin") (Some (2 ^ 1024)) None) 7 []
           sample_world (2 ^ 1024)).
  - reflexivity.
  - reflexivity.
  - apply Z.le_refl.
Defined.

(** ** The extension is appended as it is *)

Section Extension.

Lemma renamed_file_no_invalid : no_invalid "renamed_file".
Proof.
  intros c Hc. unfold invalid_chars in Hc. cbn [app In] in Hc.
  repeat (destruct Hc as [<-|Hc]; [reflexivity|]). destruct Hc.
Qed.

Lemma clean_filename_no_invalid (filename : string) :
  no_invalid (_clean_filename filename).
Proof.
  rewrite clean_filename_unfold.
  destruct (Py.truthy _);
    [apply cleaned_text_no_invalid | apply renamed_file_no_invalid].
Qed.

Lemma has_char_truthy (c : ascii) (s : string) :
  Py.has_char c s = true -> Py.truthy s = true.
Proof. now destruct s. Qed.

(** X23. The extension is not sanitised.  When the extension of the file
    name holds one of the characters [_clean_filename] replaces, the name
    [apply_pattern] builds holds that character: the extension is appended
    after the cleaning, and the fallback name is not cleaned at all. *)
Theorem extension_not_sanitised (e : env) (file : file_info)
    (kwargs context : list (string * string)) (pattern name : string)
    (c : ascii)
    (Hname : fi_name file = Some name)
    (Hinvalid : In c invalid_chars)
    (Hext : Py.has_char c (_get_extension name) = true) :
  Py.has_char c (finish e file kwargs context pattern) = true /\
  Py.has_char c (fallback_name e file) = true.
Proof.
  split.
  - unfold finish. rewrite Hname. cbn [get_default].
    set (result := _clean_filename _).
    assert (Hclean : Py.has_char c result = false)
      by (apply clean_filename_no_invalid; exact Hinvalid).
    destruct (Py.endswith result (_get_extension name)) eqn:Hend.
    + apply endswith_true in Hend as [a Ha].
      rewrite Ha, has_char_append, Hext, orb_true_r in Hclean.
      discriminate.
    + rewrite (has_char_truthy c _ Hext). cbn [negb andb].
      now rewrite has_char_append, Hext, orb_true_r.
  - unfold fallback_name. rewrite Hname. cbn [get_default].
    now rewrite !has_char_append, Hext, !orb_true_r.
Qed.

End Extension.

Lemma extension_not_sanitised_witness :
  Py.has_char ":" 
    (finish sample_env (FileInfo (Some "notes.a:b") (Some 10) None) []
       [("original", "notes")] "{original}") = true /\
  Py.has_char ":"
    (fallback_name sample_env
       (FileInfo (Some "notes.a:b") (Some 10) None)) = true.
Proof.
  apply (extension_not_sanitised sample_env
           (FileInfo (Some "notes.a:b") (Some 10) None) []
           [("original", "notes")] "{original}" "notes.a:b" ":"%char).
  - reflexivity.
  - unfold invalid_chars. cbn [app In]. right. right. left. reflexivity.
  - reflexivity.
Defined.

(** ** The built-in templates *)

(** X24. Of the templates [get_pattern_templates] offers, [validate_pattern]
    accepts all but [tv_series], whose variables [season], [episode] and
    [title] it does not know. *)
Theorem builtin_templates_validity (name template : string)
    (Hin : In (name, template) templates) :
  fst (validate_pattern template) = negb (String.eqb name "tv_series").
Proof.
  unfold templates in Hin. cbn [In] in Hin.
  repeat (destruct Hin as [Hin|Hin];
          [injection Hin as <- <-; vm_compute; reflexivity|]).
  destruct Hin.
Qed.

Lemma builtin_templates_validity_witness :
  In ("tv_series", "Series_S{season:02d}E{episode:02d}_{title}") templates /\
  fst (validate_pattern "Series_S{season:02d}E{episode:02d}_{title}") = false.
Proof.
  assert (H : In ("tv_series", "Series_S{season:02d}E{episode:02d}_{title}")
                templates) by (right; left; reflexivity).
  split; [exact H|].
  exact (builtin_templates_validity _ _ H).
Defined.

(** ** Rendering under the lock *)

Section RenderUnderLock.

Import Locked.

Variable hash : string -> Z.

Lemma finish_endswith (e : env) (file : file_info)
    (kwargs context : list (string * string)) (built name : string) :
  fi_name file = Some name -> _get_extension name <> "" ->
  Py.endswith (finish e file kwargs context built) (_get_extension name) =
  true.
Proof.
  intros Hname Hext. unfold finish. rewrite Hname. cbn [get_default].
  set (result := _clean_filename _).
  destruct (Py.endswith result (_get_extension name)) eqn:E; [exact E|].
  destruct (_get_extension name); [congruence|].
  cbn [negb andb Py.truthy]. apply endswith_append.
Qed.

Lemma fallback_endswith (e : env) (file : file_info) (name : string) :
  fi_name file = Some name ->
  Py.endswith (fallback_name e file) (_get_extension name) = true.
Proof.
  intros Hname. unfold fallback_name. rewrite Hname. cbn [get_default].
  rewrite <- !append_assoc. apply endswith_append.
Qed.


Lemma build_context_oversized (e : env) (name type : option string)
    (user_id : Z) (st : state) :
  build_context e (FileInfo name (Some (2 ^ 1024)) type) user_id st =
  Raise OverflowError.
Proof.
  unfold build_context. cbn [fi_size get_default].
  rewrite (format_size_overflow (2 ^ 1024)) by apply Z.le_refl.
  reflexivity.
Qed.

(** C1 (what the code does instead).  No counter value is ever delivered.
    A render on a file with a real size (absent, or a count below 2^64),
    called with the lock free, does not return: the name is built, and the
    call then stops in [_increment_counter], which never returns because
    [set_user_preference] waits for the lock it holds.  So there is no first
    result, no second render, and nothing is written to the durable store.
    The name built before that does not hold the counter either: for the
    valid pattern ["{counter}_{original}"] on ["movie.mp4"] it is
    ["{counter}_movie.mp4"], with the token still in it. *)
Theorem counter_never_delivered (e : env) (pattern : string)
    (file : file_info) (user_id : Z) (kwargs : list (string * string))
    (w : world)
    (Hfree : held w = false)
    (Hsize : match fi_size file with
             | Some n => 0 <= n < 2 ^ 64
             | None => True
             end) :
  Locked.apply_pattern hash e pattern file user_id kwargs w = Blocks /\
  Locked._increment_counter hash user_id pattern w = Blocks /\
  validate_pattern "{counter}_{original}" = (true, "Valid pattern") /\
  exists context,
    build_context e movie_mp4 user_id (plain w) = Ok context /\
    finish e movie_mp4 [] context
      (fst (PatternManager._process_counters hash e "{counter}_{original}"
              user_id (plain w))) =
    "{counter}_movie.mp4".
Proof.
  split; [|split; [|split]].
  - rewrite apply_pattern_outcome, Hfree.
    now rewrite (size_fits_count file Hsize).
  - apply increment_counter_blocks.
  - vm_compute. reflexivity.
  - destruct (build_context_fits e movie_mp4 user_id (plain w) eq_refl)
      as [context Hc].
    exists context. split; [exact Hc|].
    rewrite process_counters_plain_token.
    exact (proj1 (finish_movie e user_id (plain w) context Hc)).
Qed.

(** C3 (as amended).  For the pattern ["{counter:03d}_{original}.{ext}"] on
    ["movie.mp4"] the name [apply_pattern] builds ends in ["_movie..mp4"]:
    [{original}] is ["movie"], and the value of [{ext}] is [".mp4"], dot
    included, so the dot written in the pattern comes twice. *)
Theorem padded_counter_name_double_dot (e : env) (user_id : Z) (st : state) :
  _remove_extension "movie.mp4" = "movie" /\
  _get_extension "movie.mp4" = ".mp4" /\
  exists context start,
    build_context e movie_mp4 user_id st = Ok context /\
    finish e movie_mp4 [] context
      (fst (PatternManager._process_counters hash e
              "{counter:03d}_{original}.{ext}" user_id st)) =
    start ++ "_movie..mp4".
Proof.
  split; [reflexivity|]. split; [reflexivity|].
  destruct (build_context_fits e movie_mp4 user_id st eq_refl)
    as [context Hc].
  exists context, "{counter_03d}". split; [exact Hc|].
  rewrite process_counters_padded_token.
  exact (proj2 (finish_movie e user_id st context Hc)).
Qed.

(** C4. When the body of [apply_pattern] raises, the call, made with the
    lock free, returns the fallback name
    [<name without extension>_<YYYYMMDD>_<HHMMSS><extension>], built from the
    file descriptor and the clock read in the handler, and the world it
    returns is the one it was given: no counter, cached or stored, is
    changed.  A body that raises exists: a size too large for a float. *)
Theorem apply_pattern_failure_falls_back (e : env) (pattern : string)
    (file : file_info) (user_id : Z) (kwargs : list (string * string))
    (w : world) (x : exn)
    (Hfree : held w = false)
    (Hfail : build_context e file user_id (plain w) = Raise x) :
  Locked.apply_pattern hash e pattern file user_id kwargs w =
    Returns
      (_remove_extension (get_default (fi_name file) "file") ++ "_" ++
       (strftime_date (now_handler e) ++ "_" ++
        strftime_time (now_handler e)) ++
       _get_extension (get_default (fi_name file) ""))
      w /\
  (forall p u,
     Locked.and_then
       (Locked.apply_pattern hash e pattern file user_id kwargs)
       (fun _ => Locked._get_counter hash u p) w =
     Locked._get_counter hash u p w) /\
  build_context e (FileInfo (fi_name file) (Some (2 ^ 1024)) (fi_type file))
    user_id (plain w) = Raise OverflowError.
Proof.
  assert (Hret : Locked.apply_pattern hash e pattern file user_id kwargs w =
                 Returns (fallback_name e file) w).
  { unfold Locked.apply_pattern, and_then.
    now rewrite (get_user_free user_id w Hfree), Hfail. }
  split; [exact Hret|]. split.
  - intros p u. unfold and_then at 1. now rewrite Hret.
  - apply build_context_oversized.
Qed.

(** C6 (what the code does instead).  The extension step itself is right:
    for a file name with an extension, the name built ends with it, whatever
    the pattern, and so does the fallback name.  But for a file with a real
    size (absent, or a count below 2^64) the call, made with the lock free,
    does not return, so no name at all is delivered: rendering a pattern on
    ["report.pdf"] yields no result. *)
Theorem extension_kept_but_not_delivered (e : env) (pattern built : string)
    (file : file_info) (name : string) (user_id : Z)
    (kwargs context : list (string * string)) (w : world)
    (Hname : fi_name file = Some name)
    (Hext : _get_extension name <> "")
    (Hfree : held w = false)
    (Hsize : match fi_size file with
             | Some n => 0 <= n < 2 ^ 64
             | None => True
             end) :
  Py.endswith (finish e file kwargs context built) (_get_extension name) =
    true /\
  Py.endswith (fallback_name e file) (_get_extension name) = true /\
  Locked.apply_pattern hash e pattern file user_id kwargs w = Blocks.
Proof.
  split; [now apply finish_endswith|].
  split; [now apply fallback_endswith|].
  rewrite apply_pattern_outcome, Hfree.
  now rewrite (size_fits_count file Hsize).
Qed.



End RenderUnderLock.

Lemma counter_never_delivered_witness :
  Locked.held registered_world = false /\
  Locked.apply_pattern sample_hash sample_env "{counter}_{original}"
    movie_mp4 7 [] registered_world = Locked.Blocks /\
  Locked._increment_counter sample_hash 7 "{counter}_{original}"
    registered_world = Locked.Blocks.
Proof.
  split; [reflexivity|].
  destruct (counter_never_delivered sample_hash sample_env
              "{counter}_{original}" movie_mp4 7 [] registered_world)
    as (Hrender & Hincrement & _).
  - reflexivity.
  - vm_compute. split; [discriminate | reflexivity].
  - split; [exact Hrender | exact Hincrement].
Defined.

(** The claim of C3 as it is worded fails: with the counter at 1, the call
    for ["{counter:03d}_{original}.{ext}"] on ["movie.mp4"] returns nothing,
    and the name it has built is not ["001_movie.mp4"]. *)
Lemma padded_counter_counterexample :
  counter_of sample_hash 7 "{counter:03d}_{original}.{ext}"
    (Locked.plain registered_world) = 1 /\
  Locked.apply_pattern sample_hash sample_env
    "{counter:03d}_{original}.{ext}" movie_mp4 7 [] registered_world =
    Locked.Blocks /\
  exists context,
    build_context sample_env movie_mp4 7 (Locked.plain registered_world) =
      Ok context /\
    finish sample_env movie_mp4 [] context
      (fst (_process_counters sample_hash sample_env
              "{counter:03d}_{original}.{ext}" 7
              (Locked.plain registered_world))) =
      "{counter_03d}_movie..mp4" /\
    finish sample_env movie_mp4 [] context
      (fst (_process_counters sample_hash sample_env
              "{counter:03d}_{original}.{ext}" 7
              (Locked.plain registered_world))) <>
      "001_movie.mp4".
Proof.
  split; [vm_compute; reflexivity|]. split.
  - rewrite apply_pattern_outcome. reflexivity.
  - destruct (build_context_fits sample_env movie_mp4 7
                (Locked.plain registered_world) eq_refl) as [context Hc].
    exists context. split; [exact Hc|].
    rewrite process_counters_padded_token.
    rewrite (proj2 (finish_movie sample_env 7
                      (Locked.plain registered_world) context Hc)).
    split; [reflexivity | discriminate].
Qed.

Lemma apply_pattern_failure_falls_back_witness :
  (Locked.held sample_world = false /\
   build_context sample_env (FileInfo (Some "dump.bin") (Some (2 ^ 1024)) None)
     7 (Locked.plain sample_world) = Raise OverflowError) /\
  Locked.apply_pattern sample_hash sample_env "{counter:d}_{original}"
    (FileInfo (Some "dump.bin") (Some (2 ^ 1024)) None) 7 [] sample_world =
  Locked.Returns "dump_20250824_090508.bin" sample_world.
Proof.
  assert (Hfail : build_context sample_env
                    (FileInfo (Some "dump.bin") (Some (2 ^ 1024)) None)
                    7 (Locked.plain sample_world) = Raise OverflowError)
    by (vm_compute; reflexivity).
  split; [split; [reflexivity | exact Hfail]|].
  exact (proj1 (apply_pattern_failure_falls_back sample_hash sample_env
                  "{counter:d}_{original}"
                  (FileInfo (Some "dump.bin") (Some (2 ^ 1024)) None) 7 []
                  sample_world OverflowError eq_refl Hfail)).
Defined.

Lemma extension_kept_but_not_delivered_witness :
  (fi_name report_pdf = Some "report.pdf" /\
   _get_extension "report.pdf" <> "" /\
   Locked.held registered_world = false) /\
  Locked.apply_pattern sample_hash sample_env "{user}_{counter:d}"
    report_pdf 7 [] registered_world = Locked.Blocks.
Proof.
  assert (Hext : _get_extension "report.pdf" <> "")
    by (vm_compute; discriminate).
  split; [split; [reflexivity | split; [exact Hext | reflexivity]]|].
  refine (proj2 (proj2 (extension_kept_but_not_delivered sample_hash
                          sample_env "{user}_{counter:d}" "" report_pdf
                          "report.pdf" 7 [] [] registered_world eq_refl Hext
                          eq_refl _))).
  vm_compute. split; [discriminate | reflexivity].
Defined.

